(** * video2audio: a shallow embedding of [video2audio.py]

    The script drives FFmpeg to extract the audio track of video files, one
    file at a time ([convert_video_to_audio]) or for a whole directory
    ([batch_convert]).  The embedding follows the script function by
    function.  Everything the script reaches through the Python standard
    library (the file system, [glob], [subprocess]) is an interface, the
    class [OS] below; [os.path] is [posixpath], written out on strings. *)

From Stdlib Require Import String Ascii List Bool Arith ZArith Lia.
Import ListNotations.
Local Open Scope string_scope.
Local Open Scope list_scope.

Set Implicit Arguments.

(** ** Strings as Python uses them *)

Module Str.

Definition sep : ascii := "/"%char.
Definition extsep : ascii := "."%char.

(** [s.startswith(c)] for a one-character [c]. *)
Definition starts_with_char (c : ascii) (s : string) : bool :=
  match s with
  | EmptyString => false
  | String d _ => Ascii.eqb c d
  end.

(** [c in s]. *)
Fixpoint mem_char (c : ascii) (s : string) : bool :=
  match s with
  | EmptyString => false
  | String d s' => Ascii.eqb c d || mem_char c s'
  end.

(** The last character of [s], if any. *)
Fixpoint last_char (s : string) : option ascii :=
  match s with
  | EmptyString => None
  | String c EmptyString => Some c
  | String _ s' => last_char s'
  end.

Definition ends_with_char (c : ascii) (s : string) : bool :=
  match last_char s with
  | Some d => Ascii.eqb c d
  | None => false
  end.

(** [p[p.rfind(c)+1:]]: what follows the last [c] (all of [p] when
    there is none). *)
Fixpoint after_last (c : ascii) (p : string) : string :=
  match p with
  | EmptyString => EmptyString
  | String d p' =>
      if mem_char c p' then after_last c p'
      else if Ascii.eqb c d then p' else p
  end.

(** [p[:p.rfind(c)+1]]: up to and including the last [c] (empty when
    there is none). *)
Fixpoint upto_last (c : ascii) (p : string) : string :=
  match p with
  | EmptyString => EmptyString
  | String d p' =>
      if mem_char c p' then String d (upto_last c p')
      else if Ascii.eqb c d then String d EmptyString else EmptyString
  end.

(** [p[:p.rfind(c)]] when [c] occurs in [p]. *)
Fixpoint before_last (c : ascii) (p : string) : string :=
  match p with
  | EmptyString => EmptyString
  | String d p' =>
      if mem_char c p' then String d (before_last c p')
      else EmptyString
  end.

(** [p[p.rfind(c):]] when [c] occurs in [p]. *)
Fixpoint from_last (c : ascii) (p : string) : string :=
  match p with
  | EmptyString => EmptyString
  | String d p' =>
      if mem_char c p' then from_last c p'
      else if Ascii.eqb c d then p else EmptyString
  end.

(** [s.rstrip(c)]. *)
Fixpoint rstrip (c : ascii) (s : string) : string :=
  match s with
  | EmptyString => EmptyString
  | String d s' =>
      match rstrip c s' with
      | EmptyString => if Ascii.eqb c d then EmptyString
                       else String d EmptyString
      | t => String d t
      end
  end.

(** [s == c * len(s)]. *)
Fixpoint all_char (c : ascii) (s : string) : bool :=
  match s with
  | EmptyString => true
  | String d s' => Ascii.eqb c d && all_char c s'
  end.

(** [str.upper] on ASCII letters; every other byte is kept. *)
Definition upper_char (c : ascii) : ascii :=
  let n := nat_of_ascii c in
  if ((97 <=? n)%nat && (n <=? 122)%nat)%bool then ascii_of_nat (n - 32) else c.

Fixpoint upper (s : string) : string :=
  match s with
  | EmptyString => EmptyString
  | String c s' => String (upper_char c) (upper s')
  end.

(** Truth value of a string: non-empty. *)
Definition truthy (s : string) : bool :=
  match s with EmptyString => false | _ => true end.

End Str.

(** ** [os.path] (posixpath) *)

Module Path.
Import Str.

(** [os.path.join(a, b)] with two arguments. *)
Definition join (a b : string) : string :=
  if starts_with_char sep b then b
  else if negb (truthy a) || ends_with_char sep a then a ++ b
  else a ++ String sep b.

(** [os.path.split(p)]. *)
Definition split (p : string) : string * string :=
  let head := upto_last sep p in
  let tail := after_last sep p in
  let head := if truthy head && negb (all_char sep head)
              then rstrip sep head else head in
  (head, tail).

Definition basename (p : string) : string := after_last sep p.

Definition dirname (p : string) : string := fst (split p).

(** [genericpath._splitext(p, '/', None, '.')]: the extension starts at
    the last dot of the last component, unless only dots precede it. *)
Definition splitext (p : string) : string * string :=
  let tail := after_last sep p in
  if mem_char extsep tail then
    let stem := before_last extsep tail in
    if all_char extsep stem then (p, EmptyString)
    else (before_last extsep p, from_last extsep tail)
  else (p, EmptyString).

End Path.

(** ** The FFmpeg command line (lines 64-86) *)

(** The options that depend on the format (lines 71-83). *)
Definition codec_options (audio_format quality : string) : list string :=
  if String.eqb audio_format "mp3" then
    ["-c:a"; "libmp3lame"; "-b:a"; quality]
  else if String.eqb audio_format "wav" then
    ["-c:a"; "pcm_s16le"]
  else
    ["-c:a"; "copy"].

Definition ffmpeg_cmd (input_path output_path audio_format quality : string)
  : list string :=
  (["ffmpeg"; "-i"; input_path; "-vn"]
     ++ codec_options audio_format quality)
    ++ [output_path].

(** ** What the script sees of the operating system *)

Inductive file_kind := RegularFile | Directory | Special.

(** The exceptions that reach the script. *)
Inductive exn :=
| OSError (path : string)
    (* os.makedirs could not create [path] *)
| FileNotFoundError (program : string)
    (* subprocess.run found no executable [program] *)
| CalledProcessError (returncode : Z) (cmd : list string)
                     (stderr : option string)
    (* subprocess.run(check=True): non-zero exit status; [stderr] is
       [None] unless the call was made with [stderr=PIPE] *)
| SystemExit (code : Z).
    (* sys.exit(code) *)

(** A process that was started and has exited. *)
Record completed (world : Type) := Completed {
  returncode : Z;
  out_text : string;      (* what it wrote on its standard output *)
  err_text : string;      (* what it wrote on its error stream *)
  after : world           (* the world it leaves behind *)
}.

Class OS (world : Type) := {
  (** [os.stat]: the kind of the entry a path names, if any. *)
  stat : world -> string -> option file_kind;
  (** [os.makedirs(path, exist_ok=True)]; [None] when it raises. *)
  mkdirs : world -> string -> option world;
  (** [os.scandir(path)] as [glob] uses it: the entry names, nothing when
      the directory cannot be listed. *)
  scandir : world -> string -> list string;
  (** [glob] applied to a directory part that has wildcards itself. *)
  glob_dirs : world -> string -> list string;
  (** Starting a program and waiting for it; [None] when there is no such
      executable, the one failure to start that the script handles. *)
  spawn : world -> list string -> option (completed world)
}.

(** ** Log records *)

Inductive level := INFO | WARNING | ERROR.

(** One constructor per message of the script, with the values its format
    string receives. *)
Inductive message :=
| FfmpegNotInstalled                           (* line 38 *)
| FfmpegInstallHint                            (* line 39 *)
| InputDoesNotExist (input_path : string)      (* line 57 *)
| RunningCommand (cmd : list string)           (* line 91 *)
| ConversionDone (src dst : string)            (* line 101 *)
| ConversionError (cmd : list string) (returncode : Z)
    (* line 105: the exception as text, which names the command and the
       exit status and nothing of the process's output *)
| ErrorDetails (text : string)                 (* line 107 *)
| NoVideoFound (input_dir : string)            (* line 142 *)
| BatchStart (found : nat)                     (* line 145 *)
| BatchDone (successes failures : nat)         (* line 161 *)
| InputMustBeDirectory (input : string)        (* line 227 *)
| Summary (successes failures : nat)           (* line 239 *)
| InputFileDoesNotExist (input : string)       (* line 245 *)
| AllDone.                                     (* line 259 *)

(** ** The state of a run and its monad *)

(** One call of [subprocess.run]: the command and whether the output
    streams were piped to the script. *)
Record invocation := Invocation {
  argv : list string;
  piped : bool
}.

Record state (world : Type) := State {
  os_world : world;
  log : list (level * message);     (* records emitted, oldest first *)
  calls : list invocation;          (* subprocess.run calls, oldest first *)
  console : list string             (* engine output that reached the terminal *)
}.

Inductive outcome (A : Type) :=
| Ret (a : A)
| Raise (e : exn).

Arguments Ret {A} a.
Arguments Raise {A} e.

Definition M (world A : Type) : Type := state world -> outcome A * state world.

Section Monad.
Context {world : Type}.

Definition ret {A} (a : A) : M world A := fun st => (Ret a, st).

Definition bind {A B} (c : M world A) (k : A -> M world B) : M world B :=
  fun st =>
    match c st with
    | (Ret a, st') => k a st'
    | (Raise e, st') => (Raise e, st')
    end.

Definition raise {A} (e : exn) : M world A := fun st => (Raise e, st).

(** [try: body except ...: handler]; [handler e] is [None] for an
    exception that no [except] clause names. *)
Definition try_except {A} (body : M world A)
           (handler : exn -> option (M world A)) : M world A :=
  fun st =>
    match body st with
    | (Ret a, st') => (Ret a, st')
    | (Raise e, st') =>
        match handler e with
        | Some h => h st'
        | None => (Raise e, st')
        end
    end.

Definition emit (l : level) (m : message) : M world unit :=
  fun st => (Ret tt, State (os_world st) (log st ++ [(l, m)])
                           (calls st) (console st)).

Definition logger_info := emit INFO.
Definition logger_warning := emit WARNING.
Definition logger_error := emit ERROR.

Definition sys_exit {A} (code : Z) : M world A := raise (SystemExit code).

End Monad.

Notation "x <- c ;; k" := (bind c (fun x => k))
  (at level 61, c at next level, right associativity).
Notation "c ;; k" := (bind c (fun _ => k))
  (at level 61, right associativity).

(** ** Library calls *)

Section Library.
Context {world : Type} {sys : OS world}.

Definition is_some {A} (o : option A) : bool :=
  match o with Some _ => true | None => false end.

Definition exists_in (w : world) (path : string) : bool :=
  is_some (stat w path).

Definition isfile_in (w : world) (path : string) : bool :=
  match stat w path with Some RegularFile => true | _ => false end.

Definition isdir_in (w : world) (path : string) : bool :=
  match stat w path with Some Directory => true | _ => false end.

Definition os_path_exists (path : string) : M world bool :=
  fun st => (Ret (exists_in (os_world st) path), st).

Definition os_path_isfile (path : string) : M world bool :=
  fun st => (Ret (isfile_in (os_world st) path), st).

Definition os_path_isdir (path : string) : M world bool :=
  fun st => (Ret (isdir_in (os_world st) path), st).

(** [os.makedirs(path, exist_ok=True)]. *)
Definition os_makedirs (path : string) : M world unit :=
  fun st =>
    match mkdirs (os_world st) path with
    | Some w' => (Ret tt, State w' (log st) (calls st) (console st))
    | None => (Raise (OSError path), st)
    end.

(** [subprocess.run(cmd, check=True)], with
    [stdout=PIPE, stderr=PIPE] when [pipe].  Output that is not piped
    goes to the terminal, and then the exception carries none. *)
Definition subprocess_run (cmd : list string) (pipe : bool) : M world unit :=
  fun st =>
    let called := calls st ++ [Invocation cmd pipe] in
    match spawn (os_world st) cmd with
    | None =>
        (Raise (FileNotFoundError (hd "" cmd)),
         State (os_world st) (log st) called (console st))
    | Some p =>
        let shown := if pipe then console st
                     else console st ++ [out_text p; err_text p] in
        let st' := State (after p) (log st) called shown in
        if Z.eqb (returncode p) 0 then (Ret tt, st')
        else (Raise (CalledProcessError (returncode p) cmd
                       (if pipe then Some (err_text p) else None)), st')
    end.

(** *** [glob] and [fnmatch] (posix: names are compared as they are) *)

Definition has_magic (s : string) : bool :=
  Str.mem_char "*" s || Str.mem_char "?" s || Str.mem_char "[" s.

(** [fnmatch.fnmatchcase] for patterns made of [*], [?] and plain
    characters; the script's patterns have no character class. *)
Fixpoint fnmatch (pat name : string) : bool :=
  match pat with
  | EmptyString =>
      match name with EmptyString => true | _ => false end
  | String c pat' =>
      if Ascii.eqb c "*" then
        (fix star (n : string) : bool :=
           fnmatch pat' n
           || match n with
              | EmptyString => false
              | String _ n' => star n'
              end) name
      else
        match name with
        | EmptyString => false
        | String d name' =>
            (Ascii.eqb c "?" || Ascii.eqb c d) && fnmatch pat' name'
        end
  end.

Definition ishidden (name : string) : bool :=
  Str.starts_with_char "." name.

(** [glob._glob1]: the entries of [dirname] that match [pattern]; hidden
    entries only for a pattern that is hidden itself. *)
Definition glob1 (w : world) (dirname pattern : string) : list string :=
  let names := scandir w (if Str.truthy dirname then dirname else ".") in
  let names := if ishidden pattern then names
               else filter (fun x => negb (ishidden x)) names in
  filter (fnmatch pattern) names.

(** [glob._glob0]: a last component without wildcards. *)
Definition glob0 (w : world) (dirname basename : string) : list string :=
  if Str.truthy basename then
    if exists_in w (Path.join dirname basename) then [basename] else []
  else
    if isdir_in w dirname then [basename] else [].

(** [glob.glob(pathname)], not recursive. *)
Definition glob_in (w : world) (pathname : string) : list string :=
  let (dirname, basename) := Path.split pathname in
  if negb (has_magic pathname) then
    if Str.truthy basename then
      if exists_in w pathname then [pathname] else []
    else
      if isdir_in w dirname then [pathname] else []
  else if negb (Str.truthy dirname) then
    glob1 w dirname basename
  else
    let dirs := if negb (String.eqb dirname pathname) && has_magic dirname
                then glob_dirs w dirname else [dirname] in
    let glob_in_dir := if has_magic basename then glob1 else glob0 in
    flat_map (fun d => map (Path.join d) (glob_in_dir w d basename)) dirs.

Definition glob_glob (pathname : string) : M world (list string) :=
  fun st => (Ret (glob_in (os_world st) pathname), st).

End Library.

(** ** The script *)

Section Script.
Context {world : Type} {sys : OS world}.

(** [check_ffmpeg] (lines 27-40). *)
Definition check_ffmpeg : M world bool :=
  try_except
    (subprocess_run ["ffmpeg"; "-version"] true ;;
     ret true)
    (fun e =>
       match e with
       | CalledProcessError _ _ _ | FileNotFoundError _ =>
           Some (logger_error FfmpegNotInstalled ;;
                 logger_error FfmpegInstallHint ;;
                 ret false)
       | _ => None
       end).

(** [os.path.dirname(output_path) or '.'] (line 61). *)
Definition output_parent (output_path : string) : string :=
  let d := Path.dirname output_path in
  if Str.truthy d then d else ".".

(** [e.stderr], when it is there and not empty (line 106). *)
Definition stderr_text (stderr : option string) : option string :=
  match stderr with
  | Some text => if Str.truthy text then Some text else None
  | None => None
  end.

(** Running the command (lines 88-108). *)
Definition execute (cmd : list string) (input_path output_path : string)
           (verbose : bool) : M world bool :=
  try_except
    ((if verbose then
        logger_info (RunningCommand cmd) ;;
        subprocess_run cmd false
      else
        subprocess_run cmd true) ;;
     logger_info (ConversionDone (Path.basename input_path)
                                 (Path.basename output_path)) ;;
     ret true)
    (fun e =>
       match e with
       | CalledProcessError returncode cmd' stderr =>
           Some (logger_error (ConversionError cmd' returncode) ;;
                 (if verbose then
                    match stderr_text stderr with
                    | Some text => logger_error (ErrorDetails text)
                    | None => ret tt
                    end
                  else ret tt) ;;
                 ret false)
       | _ => None
       end).

(** [convert_video_to_audio] (lines 42-108). *)
Definition convert_video_to_audio
           (input_path output_path audio_format quality : string)
           (verbose : bool) : M world bool :=
  found <- os_path_exists input_path ;;
  if negb found then
    logger_error (InputDoesNotExist input_path) ;;
    ret false
  else
    os_makedirs (output_parent output_path) ;;
    execute (ffmpeg_cmd input_path output_path audio_format quality)
            input_path output_path verbose.

Definition video_extensions : list string :=
  ["*.mp4"; "*.avi"; "*.mov"; "*.mkv"; "*.wmv"; "*.flv"; "*.webm"].

(** The enumeration loop (lines 135-139). *)
Fixpoint find_video_files (input_dir : string) (extensions : list string)
         (video_files : list string) : M world (list string) :=
  match extensions with
  | [] => ret video_files
  | ext :: rest =>
      lower <- glob_glob (Path.join input_dir ext) ;;
      upper <- glob_glob (Path.join input_dir (Str.upper ext)) ;;
      find_video_files input_dir rest ((video_files ++ lower) ++ upper)
  end.

(** The output path of one video file (lines 152-154). *)
Definition derive_output_path (output_dir audio_format video_file : string)
  : string :=
  let base_name := Path.basename video_file in
  let output_name :=
    (fst (Path.splitext base_name) ++ "." ++ audio_format)%string in
  Path.join output_dir output_name.

(** The conversion loop (lines 150-159). *)
Fixpoint convert_each (output_dir audio_format quality : string)
         (verbose : bool) (video_files : list string)
         (success_count failure_count : nat) : M world (nat * nat) :=
  match video_files with
  | [] => ret (success_count, failure_count)
  | video_file :: rest =>
      let output_path :=
        derive_output_path output_dir audio_format video_file in
      ok <- convert_video_to_audio video_file output_path audio_format
                                   quality verbose ;;
      if ok then
        convert_each output_dir audio_format quality verbose rest
                     (success_count + 1) failure_count
      else
        convert_each output_dir audio_format quality verbose rest
                     success_count (failure_count + 1)
  end.

(** [batch_convert] (lines 110-162). *)
Definition batch_convert (input_dir output_dir audio_format quality : string)
           (verbose : bool) : M world (nat * nat) :=
  let input_dir := Path.join input_dir "" in
  let output_dir := Path.join output_dir "" in
  os_makedirs output_dir ;;
  video_files <- find_video_files input_dir video_extensions [] ;;
  match video_files with
  | [] =>
      logger_warning (NoVideoFound input_dir) ;;
      ret (0, 0)
  | _ =>
      logger_info (BatchStart (length video_files)) ;;
      counts <- convert_each output_dir audio_format quality verbose
                             video_files 0 0 ;;
      logger_info (BatchDone (fst counts) (snd counts)) ;;
      ret counts
  end.

(** The parsed command line ([parse_arguments], lines 164-209). *)
Record Args := {
  input : string;
  output : string;
  format : string;
  quality : string;
  batch : bool;
  verbose : bool
}.

(** What argparse makes of the command line: the arguments, or its own
    exit, with status 2 for a command line it refuses and 0 after it
    printed the help. *)
Inductive command_line :=
| Parsed (args : Args)
| Exits (code : Z).

(** [parse_arguments] (lines 164-209), the command line being given. *)
Definition parse_arguments (given : command_line) : M world Args :=
  match given with
  | Parsed args => ret args
  | Exits code => sys_exit code
  end.

(** [main] (lines 211-259).  Setting the logger to DEBUG (line 222)
    changes nothing here: every record of the script is INFO or above. *)
Definition main (given : command_line) : M world unit :=
  installed <- check_ffmpeg ;;
  if negb installed then sys_exit 1%Z
  else
    args <- parse_arguments given ;;
    (if batch args then
       isdir <- os_path_isdir (input args) ;;
       if negb isdir then
         logger_error (InputMustBeDirectory (input args)) ;;
         sys_exit 1%Z
       else
         counts <- batch_convert (input args) (output args) (format args)
                                 (quality args) (verbose args) ;;
         logger_info (Summary (fst counts) (snd counts)) ;;
         if (0 <? snd counts)%nat then sys_exit 1%Z else ret tt
     else
       isfile <- os_path_isfile (input args) ;;
       if negb isfile then
         logger_error (InputFileDoesNotExist (input args)) ;;
         sys_exit 1%Z
       else
         success <- convert_video_to_audio (input args) (output args)
                                           (format args) (quality args)
                                           (verbose args) ;;
         if negb success then sys_exit 1%Z else ret tt) ;;
    logger_info AllDone.

(** The exit status of the process: 0 when [main] returns, the code of
    [sys.exit], 1 for an exception nobody caught. *)
Definition exit_status (r : outcome unit) : Z :=
  match r with
  | Ret _ => 0%Z
  | Raise (SystemExit code) => code
  | Raise _ => 1%Z
  end.

End Script.

(** ** Views used in the statements *)

(** What [join] puts before a second part that is relative: the first
    part, with a separator when it is not empty and has none at its end. *)
Definition joined (a : string) : string :=
  if negb (Str.truthy a) || Str.ends_with_char Str.sep a then a
  else (a ++ String Str.sep "")%string.

Section Views.
Context {world : Type} {sys : OS world}.

(** What the enumeration loop of [batch_convert] collects in a world. *)
Definition video_files_in (w : world) (input_dir : string) : list string :=
  flat_map (fun ext =>
              glob_in w (Path.join input_dir ext)
              ++ glob_in w (Path.join input_dir (Str.upper ext)))
           video_extensions.

(** [name.endswith(suffix)]. *)
Fixpoint has_suffix (suffix name : string) : bool :=
  String.eqb suffix name
  || match name with
     | EmptyString => false
     | String _ name' => has_suffix suffix name'
     end.

(** The endings the fourteen patterns ask for, in the order of the loop. *)
Definition video_suffixes : list string :=
  [".mp4"; ".MP4"; ".avi"; ".AVI"; ".mov"; ".MOV"; ".mkv"; ".MKV";
   ".wmv"; ".WMV"; ".flv"; ".FLV"; ".webm"; ".WEBM"].

(** The directory that [glob] lists for [input_dir] and joins to each
    name it finds. *)
Definition listed_dir (input_dir : string) : string :=
  Path.dirname (Path.join input_dir "*").

(** The directory [glob] lists for [input_dir]: [.] for the empty
    path. *)
Definition listing (input_dir : string) : string :=
  if Str.truthy (listed_dir input_dir) then listed_dir input_dir else ".".

(** A text that [fnmatch] reads as it is: no [*], no [?]. *)
Definition plain_text (s : string) : bool :=
  negb (Str.mem_char "*" s) && negb (Str.mem_char "?" s).

(** An ending that can follow [*] in a pattern for names. *)
Definition ending_ok (s : string) : bool :=
  plain_text s && negb (Str.mem_char Str.sep s).

(** No string of the list is the end of another. *)
Fixpoint apart (l : list string) : bool :=
  match l with
  | [] => true
  | s :: rest =>
      forallb (fun t => negb (has_suffix s t) && negb (has_suffix t s)) rest
      && apart rest
  end.

Definition visible (names : list string) : list string :=
  filter (fun x => negb (ishidden x)) names.

(** The entry names of a directory: distinct, and without separator. *)
Definition entry_names (names : list string) : Prop :=
  NoDup names /\ Forall (fun n => Str.mem_char Str.sep n = false) names.

(** What [execute] adds to the log before it starts the command. *)
Definition announced (cmd : list string) (verbose : bool)
  : list (level * message) :=
  if verbose then [(INFO, RunningCommand cmd)] else [].

(** What reaches the terminal from a process. *)
Definition surfaced (verbose : bool) (p : completed world) : list string :=
  if verbose then [out_text p; err_text p] else [].

(** The result of a conversion whose input is missing (lines 56-58):
    [False] is returned and the error is logged; no directory is made,
    no command is started. *)
Definition input_missing (input_path : string) (st : state world)
  : outcome bool * state world :=
  (Ret false,
   State (os_world st) (log st ++ [(ERROR, InputDoesNotExist input_path)])
         (calls st) (console st)).

(** The result of a conversion whose command exited with a non-zero
    status (lines 104-108): [False] is returned and the error record
    names the command and the status. *)
Definition engine_failed (cmd : list string) (verbose : bool)
           (st : state world) (p : completed world)
  : outcome bool * state world :=
  (Ret false,
   State (after p)
         ((log st ++ announced cmd verbose)
            ++ [(ERROR, ConversionError cmd (returncode p))])
         (calls st ++ [Invocation cmd (negb verbose)])
         (console st ++ surfaced verbose p)).

(** Kinds of log records. *)
Definition is_details (r : level * message) : bool :=
  match snd r with ErrorDetails _ => true | _ => false end.

Definition is_error (r : level * message) : bool :=
  match fst r with ERROR => true | _ => false end.

(** [Processed od fmt q v files st oks st']: from [st], the conversions
    of [files], one after the other, each returned its outcome, [oks]
    in order, and left [st']. *)
Inductive Processed (output_dir audio_format quality : string)
          (verbose : bool)
  : list string -> state world -> list bool -> state world -> Prop :=
| Processed_nil st :
    Processed output_dir audio_format quality verbose [] st [] st
| Processed_cons video_file rest st ok st1 oks st2 :
    convert_video_to_audio
      video_file (derive_output_path output_dir audio_format video_file)
      audio_format quality verbose st = (Ret ok, st1) ->
    Processed output_dir audio_format quality verbose rest st1 oks st2 ->
    Processed output_dir audio_format quality verbose
              (video_file :: rest) st (ok :: oks) st2.

(** A batch run of [main] that finds the directory and no video in it:
    ffmpeg answers, [input] is a directory, the output directory can be
    made, and the enumeration is empty. *)
Definition empty_batch_run (args : Args) (st : state world) : Prop :=
  batch args = true /\
  fst (check_ffmpeg st) = Ret true /\
  isdir_in (os_world (snd (check_ffmpeg st))) (input args) = true /\
  exists w',
    mkdirs (os_world (snd (check_ffmpeg st))) (Path.join (output args) "")
    = Some w' /\
    video_files_in w' (Path.join (input args) "") = [].

Definition successes (oks : list bool) : nat := count_occ bool_dec oks true.
Definition failures (oks : list bool) : nat := count_occ bool_dec oks false.

(** The command [batch_convert] builds for one video file. *)
Definition batch_invocation (output_dir audio_format quality : string)
           (verbose : bool) (video_file : string) : invocation :=
  Invocation
    (ffmpeg_cmd video_file
                (derive_output_path output_dir audio_format video_file)
                audio_format quality)
    (negb verbose).

(** The state [st] with the records [records] added to the log. *)
Definition logged (st : state world) (records : list (level * message))
  : state world :=
  State (os_world st) (log st ++ records) (calls st) (console st).

(** The call by which [check_ffmpeg] asks for the version (lines 30-35). *)
Definition probe : invocation := Invocation ["ffmpeg"; "-version"] true.

(** The two error records of [check_ffmpeg] (lines 38-39). *)
Definition complaint : list (level * message) :=
  [(ERROR, FfmpegNotInstalled); (ERROR, FfmpegInstallHint)].

(** The record that ends a run of [main] (line 259). *)
Definition is_done (r : level * message) : bool :=
  match snd r with AllDone => true | _ => false end.

(** The exceptions that a conversion lets through. *)
Definition escaping (e : exn) : Prop :=
  (exists path, e = OSError path) \/ e = FileNotFoundError "ffmpeg".

(** A name that the enumeration of [batch_convert] takes: it does not
    start with a dot and it ends with one of [video_suffixes]. *)
Definition matches_video (name : string) : bool :=
  negb (ishidden name)
  && existsb (fun suffix => has_suffix suffix name) video_suffixes.

(** From [st] to [st'] the log has grown, by records other than the one
    that ends a run. *)
Definition grown (st st' : state world) : Prop :=
  exists records,
    log st' = log st ++ records /\ existsb is_done records = false.

End Views.

(** ** A small operating system to run the script on *)

Module Toy.

(** What does not change during a run. *)
Record config := Config {
  unwritable : list string;   (* directories that cannot be created *)
  installed : bool;           (* is there an ffmpeg executable *)
  broken : list string        (* inputs that ffmpeg cannot decode *)
}.

(** The entries of the file system. *)
Definition world : Type := list (string * file_kind).

Definition mem (x : string) (l : list string) : bool :=
  existsb (String.eqb x) l.

Fixpoint lookup (w : world) (path : string) : option file_kind :=
  match w with
  | [] => None
  | (p, k) :: w' => if String.eqb p path then Some k else lookup w' path
  end.

(** A directory path without its trailing separators. *)
Definition plain (path : string) : string :=
  if Str.all_char Str.sep path then path else Str.rstrip Str.sep path.

(** Is [path] the name of a directory to look at on the way: not empty,
    not the root, not [.], no separator at its end. *)
Definition names_directory (path : string) : bool :=
  Str.truthy path && negb (Str.all_char Str.sep path)
  && negb (Str.ends_with_char Str.sep path) && negb (String.eqb path ".").

(** The directories on the way to [seen ++ rest], from the one that
    [seen] names on, outermost first. *)
Fixpoint on_the_way (seen rest : string) : list string :=
  match rest with
  | EmptyString => if names_directory seen then [seen] else []
  | String c rest' =>
      (if Ascii.eqb c Str.sep && names_directory seen then [seen] else [])
        ++ on_the_way (seen ++ String c "") rest'
  end.

(** Making directories one after the other: a directory that is there is
    left alone, an entry of another kind is in the way, and an
    [unwritable] directory cannot be made. *)
Fixpoint make_all (cfg : config) (w : world) (dirs : list string)
  : option world :=
  match dirs with
  | [] => Some w
  | d :: rest =>
      match lookup w d with
      | Some Directory => make_all cfg w rest
      | Some _ => None
      | None =>
          if mem d (unwritable cfg) then None
          else make_all cfg (w ++ [(d, Directory)]) rest
      end
  end.

(** [os.makedirs(path, exist_ok=True)]: the empty path raises; otherwise
    the directory and the ancestors it lacks are made. *)
Definition make_dirs (cfg : config) (w : world) (path : string)
  : option world :=
  if Str.truthy path then make_all cfg w (on_the_way "" (plain path))
  else None.

Definition list_dir (w : world) (path : string) : list string :=
  let d := if String.eqb path "." then "" else path in
  map (fun e => Path.basename (fst e))
      (filter (fun e => String.eqb (Path.dirname (fst e)) d
                        && Str.truthy (Path.basename (fst e))) w).

(** ffmpeg: [-version] prints and succeeds; a conversion fails with
    status 1 and a text on the error stream when the input is broken or
    is not a regular file, and writes the output file otherwise. *)
Definition usage (w : world) : completed world :=
  Completed 1%Z "" "usage: ffmpeg [options]" w.

Definition convert (cfg : config) (w : world) (input_path output_path : string)
  : completed world :=
  match lookup w input_path with
  | Some RegularFile =>
      if mem input_path (broken cfg) then
        Completed 1%Z "" "Invalid data found when processing input" w
      else
        Completed 0%Z "" "" (w ++ [(output_path, RegularFile)])
  | _ => Completed 1%Z "" "Error opening input" w
  end.

Definition run (cfg : config) (w : world) (cmd : list string)
  : option (completed world) :=
  match cmd with
  | program :: args =>
      if String.eqb program "ffmpeg" && installed cfg then
        match args with
        | [] => Some (usage w)
        | [flag] =>
            if String.eqb flag "-version"
            then Some (Completed 0%Z "ffmpeg version 6.0" "" w)
            else Some (usage w)
        | flag :: input_path :: _ =>
            if String.eqb flag "-i"
            then Some (convert cfg w input_path (last cmd ""))
            else Some (usage w)
        end
      else None
  | [] => None
  end.

Definition os (cfg : config) : OS world := {|
  stat := lookup;
  mkdirs := make_dirs cfg;
  scandir := list_dir;
  glob_dirs := fun _ _ => [];
  spawn := run cfg
|}.

Definition start (w : world) : state world := State w [] [] [].

(** Nothing fails to be created, ffmpeg is there, [broken] inputs fail. *)
Definition calm (broken : list string) : config := Config [] true broken.

(** The second of the [three] videos cannot be decoded. *)
Definition second_broken : config := calm ["/in/two.mp4"].

(** Nothing can be created at [/sealed]. *)
Definition sealed : config := Config ["/sealed"] true [].

(** A directory with the three files of the case-sensitivity example. *)
Definition mixed_case : world :=
  [("/in", Directory);
   ("/in/a.MP4", RegularFile);
   ("/in/b.mp4", RegularFile);
   ("/in/c.Mp4", RegularFile)].

(** Three videos to convert. *)
Definition three : world :=
  [("/in", Directory);
   ("/in/one.mp4", RegularFile);
   ("/in/two.mp4", RegularFile);
   ("/in/three.mp4", RegularFile)].

(** A directory whose name looks like a video, next to a video. *)
Definition with_directory : world :=
  [("/in", Directory);
   ("/in/clips.mp4", Directory);
   ("/in/movie.mkv", RegularFile)].

(** A directory without videos. *)
Definition no_video : world :=
  [("/in", Directory);
   ("/in/notes.txt", RegularFile)].

(** No ffmpeg on this system. *)
Definition absent : config := Config [] false [].

(** Two videos with one stem. *)
Definition same_stem : world :=
  [("/in", Directory);
   ("/in/movie.mp4", RegularFile);
   ("/in/movie.avi", RegularFile)].

(** A hidden video and a video in a subdirectory, next to a video. *)
Definition hidden_video : world :=
  [("/in", Directory);
   ("/in/.draft.mp4", RegularFile);
   ("/in/sub", Directory);
   ("/in/sub/deep.mp4", RegularFile);
   ("/in/movie.mp4", RegularFile)].

End Toy.

(** * Properties *)

(** ** Running the monad *)

Section Runs.
Context {world : Type} {sys : OS world}.

Lemma bind_ret {A B} (c : M world A) (k : A -> M world B) st a st' :
  c st = (Ret a, st') -> bind c k st = k a st'.
Proof. intros E. unfold bind. now rewrite E. Qed.

Lemma bind_raise {A B} (c : M world A) (k : A -> M world B) st e st' :
  c st = (Raise e, st') -> bind c k st = (Raise e, st').
Proof. intros E. unfold bind. now rewrite E. Qed.

(** [execute] in full: the three ways it can end. *)
Lemma execute_run cmd input_path output_path verbose st :
  execute cmd input_path output_path verbose st =
  let called := calls st ++ [Invocation cmd (negb verbose)] in
  match spawn (os_world st) cmd with
  | None =>
      (Raise (FileNotFoundError (hd "" cmd)),
       State (os_world st) (log st ++ announced cmd verbose) called
             (console st))
  | Some p =>
      if Z.eqb (returncode p) 0 then
        (Ret true,
         State (after p)
               ((log st ++ announced cmd verbose)
                  ++ [(INFO, ConversionDone (Path.basename input_path)
                                            (Path.basename output_path))])
               called (console st ++ surfaced verbose p))
      else
        (Ret false,
         State (after p)
               ((log st ++ announced cmd verbose)
                  ++ [(ERROR, ConversionError cmd (returncode p))])
               called (console st ++ surfaced verbose p))
  end.
Proof.
  destruct st as [w lg cs con].
  unfold execute, try_except, bind, subprocess_run, logger_info,
    logger_error, emit, ret, announced, surfaced.
  destruct verbose; simpl;
    destruct (spawn w cmd) as [p|]; simpl;
    rewrite ?app_nil_r; try reflexivity;
    destruct (Z.eqb (returncode p) 0); simpl;
    rewrite ?app_nil_r; reflexivity.
Qed.

(** [convert_video_to_audio] in full. *)
Lemma convert_run input_path output_path audio_format quality verbose st :
  convert_video_to_audio input_path output_path audio_format quality
                         verbose st =
  if exists_in (os_world st) input_path then
    match mkdirs (os_world st) (output_parent output_path) with
    | Some w' =>
        execute (ffmpeg_cmd input_path output_path audio_format quality)
                input_path output_path verbose
                (State w' (log st) (calls st) (console st))
    | None => (Raise (OSError (output_parent output_path)), st)
    end
  else
    (Ret false,
     State (os_world st) (log st ++ [(ERROR, InputDoesNotExist input_path)])
           (calls st) (console st)).
Proof.
  unfold convert_video_to_audio, bind, os_path_exists, os_makedirs,
    logger_error, emit, ret.
  destruct (exists_in (os_world st) input_path); simpl; [|reflexivity].
  destruct (mkdirs (os_world st) (output_parent output_path));
    reflexivity.
Qed.

End Runs.

(** ** The command line *)

Section Command.
Context {world : Type} {sys : OS world}.

Lemma codec_options_other audio_format quality :
  audio_format <> "mp3" -> audio_format <> "wav" ->
  codec_options audio_format quality = ["-c:a"; "copy"].
Proof.
  intros Hmp3 Hwav. unfold codec_options.
  apply String.eqb_neq in Hmp3. apply String.eqb_neq in Hwav.
  now rewrite Hmp3, Hwav.
Qed.

Lemma codec_options_quality audio_format q1 q2 :
  audio_format <> "mp3" ->
  codec_options audio_format q1 = codec_options audio_format q2.
Proof.
  intros Hmp3. unfold codec_options.
  apply String.eqb_neq in Hmp3. now rewrite Hmp3.
Qed.

(** The only command a conversion can start is the one [ffmpeg_cmd]
    builds, piped exactly when the run is not verbose. *)
Lemma convert_calls input_path output_path audio_format quality verbose st :
  let st' := snd (convert_video_to_audio input_path output_path audio_format
                                         quality verbose st) in
  calls st' = calls st \/
  calls st' = calls st ++
              [Invocation (ffmpeg_cmd input_path output_path audio_format
                                      quality) (negb verbose)].
Proof.
  cbv zeta. rewrite convert_run.
  destruct (exists_in (os_world st) input_path); [|now left].
  destruct (mkdirs (os_world st) (output_parent output_path)) as [w'|];
    [|now left].
  rewrite execute_run. cbv zeta. simpl.
  destruct (spawn w' _) as [p|]; [|now right].
  destruct (Z.eqb (returncode p) 0); now right.
Qed.

(** C1. Whatever the request, the command built for FFmpeg carries the
    video-discard option [-vn] and the options of the format: for mp3
    the codec libmp3lame with the bitrate of the quality argument, for
    wav the codec pcm_s16le alone, for any other format the codec copy
    alone; building it cannot fail, and it is the one command the
    conversion may start. *)
Theorem engine_parameters_follow_format
        input_path output_path audio_format quality verbose
        (st : state world) :
  let cmd := ffmpeg_cmd input_path output_path audio_format quality in
  let st' := snd (convert_video_to_audio input_path output_path
                                         audio_format quality verbose st) in
  In "-vn" cmd /\
  (exists codec,
      cmd = ["ffmpeg"; "-i"; input_path; "-vn"] ++ codec ++ [output_path] /\
      ((audio_format = "mp3" /\
        codec = ["-c:a"; "libmp3lame"; "-b:a"; quality]) \/
       (audio_format = "wav" /\ codec = ["-c:a"; "pcm_s16le"]) \/
       (audio_format <> "mp3" /\ audio_format <> "wav" /\
        codec = ["-c:a"; "copy"]))) /\
  (calls st' = calls st \/
   calls st' = calls st ++ [Invocation cmd (negb verbose)]).
Proof.
  cbv zeta. split; [|split].
  - unfold ffmpeg_cmd. rewrite <- app_assoc. simpl. tauto.
  - exists (codec_options audio_format quality). split.
    + unfold ffmpeg_cmd. now rewrite <- app_assoc.
    + unfold codec_options.
      destruct (String.eqb_spec audio_format "mp3") as [E|N];
        [left; now split|].
      destruct (String.eqb_spec audio_format "wav") as [E'|N'];
        [right; left; now split|].
      right; right. now repeat split.
  - apply convert_calls.
Qed.

(** C10. For a format other than mp3 the quality argument is not used:
    two requests that differ in the quality alone build the same
    command and run the same conversion, alone or in a batch. *)
Theorem quality_only_for_mp3
        input_path output_path audio_format q1 q2 verbose
        (st : state world) :
  audio_format <> "mp3" ->
  ffmpeg_cmd input_path output_path audio_format q1 =
  ffmpeg_cmd input_path output_path audio_format q2 /\
  convert_video_to_audio input_path output_path audio_format q1 verbose st =
  convert_video_to_audio input_path output_path audio_format q2 verbose st /\
  batch_convert input_path output_path audio_format q1 verbose st =
  batch_convert input_path output_path audio_format q2 verbose st.
Proof.
  intros Hmp3.
  assert (Hcmd : forall i o, ffmpeg_cmd i o audio_format q1 =
                             ffmpeg_cmd i o audio_format q2).
  { intros i o. unfold ffmpeg_cmd.
    now rewrite (codec_options_quality q1 q2 Hmp3). }
  assert (Hconv : forall i o s,
             convert_video_to_audio i o audio_format q1 verbose s =
             convert_video_to_audio i o audio_format q2 verbose s).
  { intros i o s. rewrite !convert_run. now rewrite Hcmd. }
  split; [apply Hcmd|]. split; [apply Hconv|].
  assert (Hloop : forall files s f s0,
             convert_each (Path.join output_path "") audio_format q1 verbose
                          files s f s0 =
             convert_each (Path.join output_path "") audio_format q2 verbose
                          files s f s0).
  { induction files as [|vf rest IH]; intros s f s0; [reflexivity|].
    simpl. unfold bind. rewrite Hconv.
    destruct (convert_video_to_audio _ _ _ q2 _ s0) as [[[]|e] s1];
      auto. }
  unfold batch_convert, bind.
  destruct (os_makedirs _ st) as [[[]|e] s1]; [|reflexivity].
  destruct (find_video_files _ _ _ s1) as [[files|e] s2]; [|reflexivity].
  destruct files as [|vf rest]; [reflexivity|].
  destruct (logger_info _ s2) as [[[]|e] s3]; [|reflexivity].
  now rewrite Hloop.
Qed.

End Command.

(** ** One conversion *)

Section Conversion.
Context {world : Type} {sys : OS world}.

(** C4, as the script has it. When nothing exists at [input_path], the
    conversion returns [False] with the missing-input error in the log;
    it raises nothing, creates no directory and starts no command.  The
    test is [os.path.exists]: a path that exists passes it, whatever
    its kind. *)
Theorem missing_input_returns_false
        input_path output_path audio_format quality verbose
        (st : state world) :
  exists_in (os_world st) input_path = false ->
  convert_video_to_audio input_path output_path audio_format quality
                         verbose st
  = input_missing input_path st.
Proof.
  intros Hmissing. rewrite convert_run, Hmissing. reflexivity.
Qed.

(** An exception of one conversion ends the loop of the batch. *)
Lemma convert_each_raises output_dir audio_format quality verbose
      video_file rest s f (st : state world) e st' :
  convert_video_to_audio
    video_file (derive_output_path output_dir audio_format video_file)
    audio_format quality verbose st = (Raise e, st') ->
  convert_each output_dir audio_format quality verbose (video_file :: rest)
               s f st = (Raise e, st').
Proof. intros E. simpl. now apply bind_raise. Qed.

(** C5, as the script has it. Once the input is found, the conversion
    calls [os.makedirs] on the parent of [output_path] (on [.] when it
    has none) and starts the command in the world that call leaves; when
    [os.makedirs] raises, nothing catches the exception: the conversion
    raises it, before any command is started, and a batch that was
    running it ends with the same exception. *)
Theorem output_parent_made_or_raises
        input_path output_path audio_format quality verbose
        (st : state world) :
  exists_in (os_world st) input_path = true ->
  match mkdirs (os_world st) (output_parent output_path) with
  | Some w' =>
      convert_video_to_audio input_path output_path audio_format quality
                             verbose st
      = execute (ffmpeg_cmd input_path output_path audio_format quality)
                input_path output_path verbose
                (State w' (log st) (calls st) (console st))
  | None =>
      convert_video_to_audio input_path output_path audio_format quality
                             verbose st
      = (Raise (OSError (output_parent output_path)), st)
      /\ forall output_dir rest s f,
          output_path
          = derive_output_path output_dir audio_format input_path ->
          convert_each output_dir audio_format quality verbose
                       (input_path :: rest) s f st
          = (Raise (OSError (output_parent output_path)), st)
  end.
Proof.
  intros Hfound.
  pose proof (convert_run input_path output_path audio_format quality
                          verbose st) as E.
  rewrite Hfound in E.
  destruct (mkdirs (os_world st) (output_parent output_path)) as [w'|].
  - exact E.
  - split; [exact E|]. intros output_dir rest s f ->.
    now apply convert_each_raises.
Qed.

(** C7, what the script does. When the command exits with a non-zero
    status the conversion returns [False]; the streams are piped exactly
    when the run is not verbose, and in a verbose run the output of the
    command reaches the terminal.  The record added to the log names the
    command and the exit status only: the text of the error stream is in
    no record, verbose or not, since line 106 asks for a verbose run and
    for a captured stream at once. *)
Theorem engine_failure_detail_not_reported
        input_path output_path audio_format quality verbose
        (st : state world) w' p :
  let cmd := ffmpeg_cmd input_path output_path audio_format quality in
  exists_in (os_world st) input_path = true ->
  mkdirs (os_world st) (output_parent output_path) = Some w' ->
  spawn w' cmd = Some p ->
  returncode p <> 0%Z ->
  convert_video_to_audio input_path output_path audio_format quality
                         verbose st
  = engine_failed cmd verbose st p.
Proof.
  cbv zeta. intros Hfound Hdir Hrun Hstatus.
  rewrite convert_run, Hfound, Hdir, execute_run. cbv zeta. simpl.
  rewrite Hrun. apply Z.eqb_neq in Hstatus. now rewrite Hstatus.
Qed.

(** X15. No run of a conversion adds a record with the text of the error
    stream to the log, however ffmpeg ends and whether the run is verbose
    or not: the record of line 107 is never written. *)
Lemma details_never_logged
      input_path output_path audio_format quality verbose
      (st : state world) :
  filter is_details
         (log (snd (convert_video_to_audio input_path output_path
                                           audio_format quality verbose st)))
  = filter is_details (log st).
Proof.
  rewrite convert_run.
  destruct (exists_in (os_world st) input_path).
  - destruct (mkdirs (os_world st) (output_parent output_path)) as [w'|];
      [|reflexivity].
    rewrite execute_run. cbv zeta. simpl.
    destruct (spawn w' _) as [p|];
      [destruct (Z.eqb (returncode p) 0)|]; simpl;
      rewrite ?filter_app; unfold announced; destruct verbose; simpl;
      now rewrite ?app_nil_r.
  - simpl. rewrite filter_app. simpl. now rewrite app_nil_r.
Qed.

End Conversion.

(** ** The batch *)

Section Batch.
Context {world : Type} {sys : OS world}.

(** The enumeration loop reads the world and changes nothing. *)
Lemma find_video_files_run input_dir extensions video_files
      (st : state world) :
  find_video_files input_dir extensions video_files st =
  (Ret (video_files
          ++ flat_map (fun ext =>
                         glob_in (os_world st) (Path.join input_dir ext)
                         ++ glob_in (os_world st)
                                    (Path.join input_dir (Str.upper ext)))
                      extensions),
   st).
Proof.
  revert video_files.
  induction extensions as [|ext rest IH]; intros video_files; simpl.
  - unfold ret. now rewrite app_nil_r.
  - unfold bind, glob_glob. rewrite IH. now rewrite <- !app_assoc.
Qed.

(** [batch_convert] in full. *)
Lemma batch_convert_run input_dir output_dir audio_format quality verbose
      (st : state world) :
  batch_convert input_dir output_dir audio_format quality verbose st =
  match mkdirs (os_world st) (Path.join output_dir "") with
  | None => (Raise (OSError (Path.join output_dir "")), st)
  | Some w' =>
      match video_files_in w' (Path.join input_dir "") with
      | [] =>
          (Ret (0, 0),
           State w' (log st ++ [(WARNING,
                                 NoVideoFound (Path.join input_dir ""))])
                 (calls st) (console st))
      | video_files =>
          match convert_each (Path.join output_dir "") audio_format quality
                             verbose video_files 0 0
                             (State w' (log st ++
                                          [(INFO,
                                            BatchStart (length video_files))])
                                    (calls st) (console st)) with
          | (Ret counts, st') =>
              (Ret counts,
               State (os_world st')
                     (log st' ++ [(INFO, BatchDone (fst counts)
                                                   (snd counts))])
                     (calls st') (console st'))
          | (Raise e, st') => (Raise e, st')
          end
      end
  end.
Proof.
  unfold batch_convert, bind, os_makedirs.
  destruct (mkdirs (os_world st) (Path.join output_dir "")) as [w'|];
    [|reflexivity].
  rewrite find_video_files_run, app_nil_l. cbn [os_world].
  fold (video_files_in w' (Path.join input_dir "")).
  destruct (video_files_in w' (Path.join input_dir "")) as [|vf rest];
    [reflexivity|].
  unfold logger_info, emit. cbn [os_world log calls console].
  destruct (convert_each _ _ _ _ (vf :: rest) 0 0 _) as [[counts|e] st'];
    reflexivity.
Qed.

Lemma outcomes_counted (oks : list bool) :
  successes oks + failures oks = length oks.
Proof.
  unfold successes, failures.
  induction oks as [|[] oks IH]; simpl; lia.
Qed.

Lemma processed_length output_dir audio_format quality verbose
      files (st : state world) oks st' :
  Processed output_dir audio_format quality verbose files st oks st' ->
  length oks = length files.
Proof. induction 1; simpl; congruence. Qed.

(** The loop adds one to a counter for each outcome and goes on. *)
Lemma convert_each_processed output_dir audio_format quality verbose
      files (st : state world) oks st' :
  Processed output_dir audio_format quality verbose files st oks st' ->
  forall s f,
    convert_each output_dir audio_format quality verbose files s f st =
    (Ret (s + successes oks, f + failures oks), st').
Proof.
  induction 1 as [st|vf rest st ok st1 oks st2 Hconv Hrest IH];
    intros s f; simpl.
  - unfold ret, successes, failures. simpl. now rewrite !Nat.add_0_r.
  - unfold bind. rewrite Hconv. destruct ok; rewrite IH;
      unfold successes, failures; simpl;
      (apply f_equal2; [apply f_equal; apply f_equal2; lia | reflexivity]).
Qed.

(** The loop, in full: either every conversion returned and the counts
    are those of the outcomes, or one conversion raised, after the ones
    before it had returned, and the loop raises what it raised. *)
Lemma convert_each_outcomes output_dir audio_format quality verbose files :
  forall s f (st : state world),
    (exists oks st',
        Processed output_dir audio_format quality verbose files st oks st' /\
        convert_each output_dir audio_format quality verbose files s f st
        = (Ret (s + successes oks, f + failures oks), st'))
    \/
    (exists before video_file rest oks st1 e st',
        files = before ++ video_file :: rest /\
        Processed output_dir audio_format quality verbose before st oks st1 /\
        convert_video_to_audio
          video_file (derive_output_path output_dir audio_format video_file)
          audio_format quality verbose st1 = (Raise e, st') /\
        convert_each output_dir audio_format quality verbose files s f st
        = (Raise e, st')).
Proof.
  induction files as [|vf rest IH]; intros s f st.
  - left. exists [], st. split; [constructor|].
    simpl. unfold ret, successes, failures. simpl.
    now rewrite !Nat.add_0_r.
  - destruct (convert_video_to_audio
                vf (derive_output_path output_dir audio_format vf)
                audio_format quality verbose st) as [[ok|e] st1] eqn:E.
    + assert (Hstep :
                 convert_each output_dir audio_format quality verbose
                              (vf :: rest) s f st
                 = (if ok
                    then convert_each output_dir audio_format quality verbose
                                      rest (s + 1) f st1
                    else convert_each output_dir audio_format quality verbose
                                      rest s (f + 1) st1)).
      { simpl. unfold bind. rewrite E. now destruct ok. }
      destruct (IH (if ok then s + 1 else s) (if ok then f else f + 1) st1)
        as [(oks & st' & P & R)|(before & vf' & rest' & oks & st2 & e & st'
                                 & Hfiles & P & Hraise & R)].
      * left. exists (ok :: oks), st'. split; [econstructor; eassumption|].
        rewrite Hstep. destruct ok; rewrite R;
          unfold successes, failures; simpl;
          (apply f_equal2; [apply f_equal; apply f_equal2; lia|reflexivity]).
      * right. exists (vf :: before), vf', rest', (ok :: oks), st2, e, st'.
        split; [now rewrite Hfiles|].
        split; [econstructor; eassumption|].
        split; [assumption|].
        rewrite Hstep. now destruct ok.
    + right. exists [], vf, rest, [], st, e, st1.
      split; [reflexivity|]. split; [constructor|]. split; [assumption|].
      now apply convert_each_raises.
Qed.

(** C3, as the script has it. Once the output directory is made,
    [batch_convert] runs the conversions of the files it enumerated in
    order, and an outcome [False] never stops it: when every conversion
    returns, each file has one outcome and the two counts returned are
    the numbers of [True] and of [False] outcomes, whose sum is the
    number of files, (2, 1) for three files of which one fails.  Only an
    exception stops it: when a conversion raises, the files before it
    have their outcomes, the batch raises the same exception, and the
    files after it are not looked at. *)
Theorem batch_ends_only_on_exception
        input_dir output_dir audio_format quality verbose
        (st : state world) w' :
  mkdirs (os_world st) (Path.join output_dir "") = Some w' ->
  let video_files := video_files_in w' (Path.join input_dir "") in
  exists st1,
    os_world st1 = w' /\
    ((exists oks st2 st',
         Processed (Path.join output_dir "") audio_format quality verbose
                   video_files st1 oks st2 /\
         length oks = length video_files /\
         batch_convert input_dir output_dir audio_format quality verbose st
         = (Ret (successes oks, failures oks), st') /\
         successes oks + failures oks = length video_files /\
         (length video_files = 3 -> failures oks = 1 -> successes oks = 2))
     \/
     (exists before video_file rest oks st2 e st',
         video_files = before ++ video_file :: rest /\
         Processed (Path.join output_dir "") audio_format quality verbose
                   before st1 oks st2 /\
         convert_video_to_audio
           video_file
           (derive_output_path (Path.join output_dir "") audio_format
                               video_file)
           audio_format quality verbose st2 = (Raise e, st') /\
         batch_convert input_dir output_dir audio_format quality verbose st
         = (Raise e, st'))).
Proof.
  intros Hmk. cbv zeta. rewrite batch_convert_run, Hmk.
  destruct (video_files_in w' (Path.join input_dir "")) as [|vf rest] eqn:F.
  - exists (State w' (log st) (calls st) (console st)).
    split; [reflexivity|]. left. eexists [], _, _.
    repeat split; try reflexivity; [constructor|intros; discriminate].
  - cbv zeta.
    set (st1 := State w' (log st ++ [(INFO, BatchStart (length (vf :: rest)))])
                      (calls st) (console st)).
    exists st1. split; [reflexivity|].
    destruct (convert_each_outcomes (Path.join output_dir "") audio_format
                                    quality verbose (vf :: rest) 0 0 st1)
      as [(oks & st2 & P & R)|(before & vf' & rest' & oks & st2 & e & st'
                               & Hfiles & P & Hraise & R)].
    + left. pose proof (processed_length P) as L.
      pose proof (outcomes_counted oks) as C.
      rewrite R. simpl Nat.add. eexists oks, st2, _.
      repeat split; try reflexivity; try assumption; lia.
    + right. rewrite R. exists before, vf', rest', oks, st2, e, st'.
      now repeat split.
Qed.


(** C9. When the output directory can be made and the enumeration finds
    no video file, [batch_convert] returns the counts (0, 0): it raises
    nothing, starts no command, and adds one record to the log, a
    warning, so that no failure is recorded. *)
Theorem no_video_gives_empty_report
        input_dir output_dir audio_format quality verbose
        (st : state world) w' :
  mkdirs (os_world st) (Path.join output_dir "") = Some w' ->
  video_files_in w' (Path.join input_dir "") = [] ->
  batch_convert input_dir output_dir audio_format quality verbose st
  = (Ret (0, 0),
     State w' (log st ++ [(WARNING, NoVideoFound (Path.join input_dir ""))])
           (calls st) (console st))
  /\ filter is_error
            (log (snd (batch_convert input_dir output_dir audio_format
                                     quality verbose st)))
     = filter is_error (log st).
Proof.
  intros Hdir Hnone. rewrite batch_convert_run, Hdir, Hnone.
  split; [reflexivity|]. simpl. rewrite filter_app. simpl.
  now rewrite app_nil_r.
Qed.

End Batch.

(** ** Paths *)

Section Paths.
Import Str.

Lemma mem_char_app c s t :
  mem_char c (s ++ t)%string = mem_char c s || mem_char c t.
Proof.
  induction s as [|d s IH]; simpl; [reflexivity|].
  now rewrite IH, orb_assoc.
Qed.

Lemma after_last_plain c s : mem_char c s = false -> after_last c s = s.
Proof.
  destruct s as [|d s]; simpl; [reflexivity|].
  intros E. apply orb_false_elim in E as [E1 E2]. now rewrite E1, E2.
Qed.

Lemma after_last_clean c s : mem_char c (after_last c s) = false.
Proof.
  induction s as [|d s IH]; simpl; [reflexivity|].
  destruct (mem_char c s) eqn:E; [exact IH|].
  destruct (Ascii.eqb c d) eqn:E'; [exact E|].
  simpl. now rewrite E', E.
Qed.

Lemma basename_basename p :
  Path.basename (Path.basename p) = Path.basename p.
Proof. apply after_last_plain, after_last_clean. Qed.

Lemma starts_with_sep_mem b :
  mem_char sep b = false -> starts_with_char sep b = false.
Proof.
  destruct b as [|d b]; simpl; [reflexivity|].
  intros E. now apply orb_false_elim in E as [E _].
Qed.

Lemma append_assoc (s t u : string) :
  ((s ++ t) ++ u = s ++ t ++ u)%string.
Proof. induction s as [|c s IH]; simpl; [reflexivity|]. now rewrite IH. Qed.

Lemma append_empty (s : string) : (s ++ "")%string = s.
Proof. induction s as [|c s IH]; simpl; [reflexivity|]. now rewrite IH. Qed.

Lemma join_relative a b :
  starts_with_char sep b = false ->
  Path.join a b = (joined a ++ b)%string.
Proof.
  intros E. unfold Path.join, joined. rewrite E.
  destruct (negb (truthy a) || ends_with_char sep a); [reflexivity|].
  now rewrite append_assoc.
Qed.

Lemma last_char_cons d s :
  s <> EmptyString -> last_char (String d s) = last_char s.
Proof. destruct s; [congruence|reflexivity]. Qed.

(** After a prefix that is empty or ends with the separator, a part
    without separator is the last component. *)
Lemma after_last_prefixed a b :
  a = EmptyString \/ ends_with_char sep a = true ->
  mem_char sep b = false ->
  after_last sep (a ++ b) = b.
Proof.
  intros Ha Hb. induction a as [|d a IH]; simpl.
  - now apply after_last_plain.
  - destruct Ha as [Ha|Ha]; [discriminate|].
    rewrite mem_char_app, Hb, orb_false_r.
    destruct a as [|d' a].
    + simpl. unfold ends_with_char in Ha. simpl in Ha.
      rewrite Ha. reflexivity.
    + assert (Hm : mem_char sep (String d' a) = true).
      { clear - Ha. unfold ends_with_char in Ha.
        rewrite last_char_cons in Ha by discriminate.
        revert d' Ha. induction a as [|e a IH]; intros d' Ha; simpl in *.
        - now rewrite Ha.
        - rewrite (IH e Ha). apply orb_true_r. }
      rewrite Hm. apply IH. right.
      unfold ends_with_char in *.
      now rewrite last_char_cons in Ha by discriminate.
Qed.

Lemma upto_last_prefixed a b :
  a = EmptyString \/ ends_with_char sep a = true ->
  mem_char sep b = false ->
  upto_last sep (a ++ b) = a.
Proof.
  intros Ha Hb. induction a as [|d a IH]; simpl.
  - destruct b as [|e b]; simpl; [reflexivity|].
    simpl in Hb. apply orb_false_elim in Hb as [E1 E2].
    now rewrite E1, E2.
  - destruct Ha as [Ha|Ha]; [discriminate|].
    rewrite mem_char_app, Hb, orb_false_r.
    destruct a as [|d' a].
    + simpl. unfold ends_with_char in Ha. simpl in Ha.
      rewrite Ha. reflexivity.
    + assert (Hm : mem_char sep (String d' a) = true).
      { clear - Ha. unfold ends_with_char in Ha.
        rewrite last_char_cons in Ha by discriminate.
        revert d' Ha. induction a as [|e a IH]; intros d' Ha; simpl in *.
        - now rewrite Ha.
        - rewrite (IH e Ha). apply orb_true_r. }
      rewrite Hm. f_equal. apply IH. right.
      unfold ends_with_char in *.
      now rewrite last_char_cons in Ha by discriminate.
Qed.

Lemma last_char_app_sep a :
  last_char (a ++ String sep "") = Some sep.
Proof.
  induction a as [|d a IH]; [reflexivity|].
  simpl append. rewrite last_char_cons; [exact IH|].
  destruct a; discriminate.
Qed.

Lemma joined_shape a :
  joined a = EmptyString \/ ends_with_char sep (joined a) = true.
Proof.
  unfold joined. destruct a as [|d a]; [now left|]. simpl negb. simpl orb.
  destruct (ends_with_char sep (String d a)) eqn:E; [now right|].
  right. unfold ends_with_char. now rewrite last_char_app_sep.
Qed.

(** [basename(join(a, b)) = b] for a name [b]. *)
Lemma basename_join a b :
  mem_char sep b = false -> Path.basename (Path.join a b) = b.
Proof.
  intros Hb. rewrite join_relative by now apply starts_with_sep_mem.
  apply after_last_prefixed; [apply joined_shape|exact Hb].
Qed.

Lemma before_last_suffix c s e :
  mem_char c e = false ->
  before_last c (s ++ String c e) = s.
Proof.
  intros He. induction s as [|d s IH]; simpl.
  - now rewrite He.
  - rewrite mem_char_app. simpl. rewrite Ascii.eqb_refl, orb_true_r.
    now rewrite IH.
Qed.

(** The stem of a visible name that ends with a dot and an extension
    without dot. *)
Lemma splitext_stem stem e :
  truthy stem = true -> starts_with_char extsep stem = false ->
  mem_char sep stem = false -> mem_char sep e = false ->
  mem_char extsep e = false ->
  fst (Path.splitext (stem ++ String extsep e)) = stem.
Proof.
  intros Hne Hvis Hsep Hsepe Hdot. unfold Path.splitext.
  assert (Hplain : mem_char sep (stem ++ String extsep e) = false).
  { rewrite mem_char_app, Hsep. simpl. now rewrite Hsepe. }
  rewrite (after_last_plain _ _ Hplain).
  assert (Hm : mem_char extsep (stem ++ String extsep e) = true).
  { rewrite mem_char_app. apply orb_true_iff. right.
    cbn [mem_char]. now rewrite Ascii.eqb_refl. }
  rewrite Hm, (before_last_suffix _ stem _ Hdot).
  destruct stem as [|d stem]; [discriminate|].
  simpl in Hvis. simpl all_char. rewrite Hvis. reflexivity.
Qed.

End Paths.

(** ** Output paths *)

Section OutputPaths.
Context {world : Type} {sys : OS world}.

Lemma derive_output_path_basename output_dir audio_format video_file :
  derive_output_path output_dir audio_format video_file =
  derive_output_path output_dir audio_format (Path.basename video_file).
Proof. unfold derive_output_path. now rewrite basename_basename. Qed.

Lemma video_suffix_shape suffix :
  In suffix video_suffixes ->
  exists e, suffix = String Str.extsep e /\
            Str.mem_char Str.sep e = false /\
            Str.mem_char Str.extsep e = false.
Proof.
  unfold video_suffixes. simpl.
  intros Hin.
  repeat (destruct Hin as [<-|Hin];
          [eexists; split; [reflexivity|split; reflexivity]|]).
  contradiction.
Qed.

(** The commands a batch starts are those of [batch_invocation], for
    files of the list. *)
Lemma convert_each_calls output_dir audio_format quality verbose files :
  forall s f (st : state world),
  exists used,
    incl used files /\
    calls (snd (convert_each output_dir audio_format quality verbose
                             files s f st))
    = calls st ++ map (batch_invocation output_dir audio_format quality
                                        verbose) used.
Proof.
  induction files as [|vf rest IH]; intros s f st.
  - exists []. split; [apply incl_refl|]. simpl. now rewrite app_nil_r.
  - simpl. unfold bind.
    pose proof (convert_calls
                  vf (derive_output_path output_dir audio_format vf)
                  audio_format quality verbose st) as Hc.
    cbv zeta in Hc.
    destruct (convert_video_to_audio vf _ audio_format quality verbose st)
      as [[ok|e] st1]; simpl in Hc.
    + assert (Hrest : exists used,
                 incl used rest /\
                 calls (snd (if ok
                             then convert_each output_dir audio_format
                                    quality verbose rest (s + 1) f st1
                             else convert_each output_dir audio_format
                                    quality verbose rest s (f + 1) st1))
                 = calls st1 ++ map (batch_invocation
                                       output_dir audio_format quality
                                       verbose) used).
      { destruct ok; apply IH. }
      destruct Hrest as (used & Hincl & Hcalls).
      replace (if ok return (M world (nat * nat))
               then convert_each output_dir audio_format quality verbose
                      rest (s + 1) f
               else convert_each output_dir audio_format quality verbose
                      rest s (f + 1)) with
        (fun st1 => if ok
                    then convert_each output_dir audio_format quality
                           verbose rest (s + 1) f st1
                    else convert_each output_dir audio_format quality
                           verbose rest s (f + 1) st1)
        by now destruct ok.
      cbv beta. rewrite Hcalls.
      destruct Hc as [-> | ->].
      * exists used. split; [now apply incl_tl|reflexivity].
      * exists (vf :: used). split.
        -- now apply incl_cons; [left|apply incl_tl].
        -- now rewrite <- app_assoc.
    + simpl. destruct Hc as [-> | ->].
      * exists []. split; [intros x []|]. simpl. now rewrite app_nil_r.
      * exists [vf]. split; [|reflexivity].
        intros x [<-|[]]. now left.
Qed.

(** C8. The output path of a video file is a function of the output
    directory, the format and the base name of the file: the base name
    up to its extension, a dot and the format, joined to the output
    directory.  For a visible name that ends with one of the video
    extensions that extension is what goes; [movie.mkv], wherever it
    lies, converted to wav into [/out] gives [/out/movie.wav]; and every
    command that a batch starts writes to the path derived for its
    input. *)
Theorem output_path_is_derived
        output_dir audio_format quality verbose files s f
        (st : state world) :
  (forall video_file,
      derive_output_path output_dir audio_format video_file =
      derive_output_path output_dir audio_format
                         (Path.basename video_file)) /\
  (forall dir stem suffix,
      In suffix video_suffixes ->
      Str.truthy stem = true -> ishidden stem = false ->
      Str.mem_char Str.sep stem = false ->
      derive_output_path output_dir audio_format
                         (Path.join dir (stem ++ suffix))
      = Path.join output_dir (stem ++ "." ++ audio_format)) /\
  (forall dir,
      derive_output_path (Path.join "/out" "") "wav"
                         (Path.join dir "movie.mkv")
      = "/out/movie.wav") /\
  (exists used,
      incl used files /\
      calls (snd (convert_each output_dir audio_format quality verbose
                               files s f st))
      = calls st ++ map (batch_invocation output_dir audio_format quality
                                          verbose) used).
Proof.
  split; [|split; [|split]].
  - intros video_file. apply derive_output_path_basename.
  - intros dir stem suffix Hin Hne Hvis Hsep.
    destruct (@video_suffix_shape suffix Hin) as (e & -> & Hsepe & Hdot).
    unfold derive_output_path.
    rewrite basename_join.
    + now rewrite splitext_stem.
    + rewrite mem_char_app, Hsep. simpl. exact Hsepe.
  - intros dir. unfold derive_output_path.
    rewrite basename_join by reflexivity. reflexivity.
  - apply convert_each_calls.
Qed.

End OutputPaths.

(** ** The entry point *)

Section Main.
Context {world : Type} {sys : OS world}.

(** [check_ffmpeg] in full: it always returns. *)
Lemma check_ffmpeg_run (st : state world) :
  check_ffmpeg st =
  let called := calls st ++ [Invocation ["ffmpeg"; "-version"] true] in
  let complaint := [(ERROR, FfmpegNotInstalled);
                    (ERROR, FfmpegInstallHint)] in
  match spawn (os_world st) ["ffmpeg"; "-version"] with
  | None =>
      (Ret false,
       State (os_world st) (log st ++ complaint) called (console st))
  | Some p =>
      if Z.eqb (returncode p) 0 then
        (Ret true, State (after p) (log st) called (console st))
      else
        (Ret false,
         State (after p) (log st ++ complaint) called (console st))
  end.
Proof.
  unfold check_ffmpeg, try_except, bind, subprocess_run, logger_error,
    emit, ret.
  destruct (spawn (os_world st) ["ffmpeg"; "-version"]) as [p|]; simpl.
  - destruct (Z.eqb (returncode p) 0); simpl;
      now rewrite <- ?app_assoc.
  - now rewrite <- app_assoc.
Qed.

Lemma check_ffmpeg_returns (st : state world) :
  exists installed, fst (check_ffmpeg st) = Ret installed.
Proof.
  rewrite check_ffmpeg_run. cbv zeta.
  destruct (spawn (os_world st) ["ffmpeg"; "-version"]) as [p|];
    [destruct (Z.eqb (returncode p) 0)|]; simpl; eauto.
Qed.

(** C6. A batch run of the script on an input that is not a directory
    ends with exit status 1: [main] tests [os.path.isdir] before it
    calls [batch_convert], so that no directory is made and no
    conversion is started.  A batch run on a directory without videos
    ends with exit status 0, so the two can be told apart. *)
Theorem batch_input_must_be_directory (args : Args) (st : state world) :
  batch args = true ->
  isdir_in (os_world (snd (check_ffmpeg st))) (input args) = false ->
  exit_status (fst (main (Parsed args) st)) = 1%Z /\
  os_world (snd (main (Parsed args) st))
  = os_world (snd (check_ffmpeg st)) /\
  calls (snd (main (Parsed args) st)) = calls (snd (check_ffmpeg st)) /\
  forall args' (st' : state world),
    empty_batch_run args' st' ->
    exit_status (fst (main (Parsed args') st')) = 0%Z.
Proof.
  intros Hbatch Hnodir. repeat split.
  1-3: unfold main, bind;
    destruct (check_ffmpeg_returns st) as (installed & E);
    destruct (check_ffmpeg st) as [r st1]; simpl in E, Hnodir; subst r;
    destruct installed; simpl; [|reflexivity];
    rewrite Hbatch; unfold os_path_isdir; rewrite Hnodir; reflexivity.
  intros args' st' (Hbatch' & Hok & Hdir & w' & Hmk & Hnone).
  unfold main, bind.
  destruct (check_ffmpeg st') as [r st1]. simpl in Hok, Hdir, Hmk. subst r.
  simpl. rewrite Hbatch'. unfold os_path_isdir. rewrite Hdir. simpl.
  rewrite batch_convert_run, Hmk, Hnone. reflexivity.
Qed.

(** [batch_convert] itself does not look at what [input_dir] is: when
    the enumeration is empty it returns (0, 0), directory or not. *)
Lemma batch_convert_has_no_check
      input_dir output_dir audio_format quality verbose
      (st : state world) w' :
  mkdirs (os_world st) (Path.join output_dir "") = Some w' ->
  video_files_in w' (Path.join input_dir "") = [] ->
  fst (batch_convert input_dir output_dir audio_format quality verbose st)
  = Ret (0, 0).
Proof.
  intros Hmk Hnone. now rewrite batch_convert_run, Hmk, Hnone.
Qed.

End Main.

(** ** The enumeration *)

Section Enumeration.
Context {world : Type} {sys : OS world}.
Import Str.

Lemma fnmatch_plain lit :
  plain_text lit = true ->
  forall name, fnmatch lit name = String.eqb lit name.
Proof.
  unfold plain_text.
  induction lit as [|c lit IH]; intros Hp name.
  - now destruct name.
  - cbn [mem_char] in Hp. rewrite !negb_orb in Hp.
    apply andb_true_iff in Hp as [Hs Hq].
    apply andb_true_iff in Hs as [Hs Hs'].
    apply andb_true_iff in Hq as [Hq Hq'].
    apply negb_true_iff in Hs, Hq.
    rewrite Ascii.eqb_sym in Hs. rewrite Ascii.eqb_sym in Hq.
    cbn [fnmatch]. rewrite Hs.
    destruct name as [|d name]; [reflexivity|].
    rewrite Hq. simpl orb. rewrite IH by now rewrite Hs', Hq'.
    simpl String.eqb. now destruct (Ascii.eqb c d).
Qed.

Lemma fnmatch_star lit :
  plain_text lit = true ->
  forall name, fnmatch (String "*" lit) name = has_suffix lit name.
Proof.
  intros Hp name. induction name as [|d name IH].
  - cbn. rewrite fnmatch_plain by assumption. now rewrite orb_false_r.
  - change (fnmatch (String "*" lit) (String d name))
      with (fnmatch lit (String d name) || fnmatch (String "*" lit) name).
    rewrite IH, fnmatch_plain by assumption. reflexivity.
Qed.

Lemma glob1_star (w : world) dirname lit :
  plain_text lit = true ->
  glob1 w dirname (String "*" lit) =
  filter (has_suffix lit)
         (visible (scandir w (if truthy dirname then dirname else "."))).
Proof.
  intros Hp. unfold glob1, visible.
  change (ishidden (String "*" lit)) with false. cbv iota.
  apply filter_ext. intros name. now apply fnmatch_star.
Qed.

Lemma split_join dir name :
  mem_char sep name = false ->
  Path.split (Path.join dir name)
  = (fst (Path.split (joined dir)), name).
Proof.
  intros Hn. rewrite join_relative by now apply starts_with_sep_mem.
  unfold Path.split.
  rewrite (@upto_last_prefixed (joined dir) name (joined_shape dir) Hn).
  rewrite (@after_last_prefixed (joined dir) name (joined_shape dir) Hn).
  assert (E : upto_last sep (joined dir) = joined dir).
  { pose proof (@upto_last_prefixed (joined dir) "" (joined_shape dir)
                                    eq_refl) as E.
    now rewrite append_empty in E. }
  now rewrite E.
Qed.

Lemma listed_dir_split dir name :
  mem_char sep name = false ->
  Path.split (Path.join dir name) = (listed_dir dir, name).
Proof.
  intros Hn. unfold listed_dir, Path.dirname.
  rewrite (split_join dir "*") by reflexivity.
  now apply split_join.
Qed.

Lemma join_empty name : Path.join "" name = name.
Proof.
  unfold Path.join. now destruct (starts_with_char sep name).
Qed.

Lemma has_magic_join dir lit :
  has_magic (Path.join dir (String "*" lit)) = true.
Proof.
  rewrite join_relative by reflexivity.
  unfold has_magic. rewrite mem_char_app.
  cbn [mem_char]. rewrite Ascii.eqb_refl. simpl orb.
  now rewrite orb_true_r.
Qed.

(** [glob] on [input_dir/*lit]: the visible names of the directory that
    end with [lit], each joined to the directory. *)
Lemma glob_in_star (w : world) dir lit :
  has_magic (listed_dir dir) = false ->
  ending_ok lit = true ->
  glob_in w (Path.join dir (String "*" lit)) =
  map (Path.join (listed_dir dir))
      (filter (has_suffix lit) (visible (scandir w (listing dir)))).
Proof.
  intros Hdir Hlit. unfold ending_ok in Hlit.
  apply andb_true_iff in Hlit as [Hp Hs]. apply negb_true_iff in Hs.
  assert (Hname : mem_char sep (String "*" lit) = false).
  { cbn [mem_char]. now rewrite Hs. }
  unfold glob_in. rewrite (listed_dir_split dir _ Hname), has_magic_join.
  cbn [negb]. unfold listing.
  destruct (truthy (listed_dir dir)) eqn:Hne; cbn [negb].
  - rewrite Hdir, andb_false_r.
    change (has_magic (String "*" lit)) with true. cbv iota.
    cbn [flat_map]. rewrite app_nil_r, glob1_star, Hne by assumption.
    reflexivity.
  - rewrite glob1_star, Hne by assumption.
    destruct (listed_dir dir); [|discriminate].
    rewrite (map_ext _ (fun x => x) join_empty). now rewrite map_id.
Qed.

Lemma upper_star lit : upper (String "*" lit) = String "*" (upper lit).
Proof. reflexivity. Qed.

(** The two patterns of one extension. *)
Lemma glob_in_both (w : world) dir lit :
  has_magic (listed_dir dir) = false ->
  ending_ok lit = true -> ending_ok (upper lit) = true ->
  glob_in w (Path.join dir (String "*" lit))
  ++ glob_in w (Path.join dir (upper (String "*" lit)))
  = map (Path.join (listed_dir dir))
        (flat_map (fun suffix =>
                     filter (has_suffix suffix)
                            (visible (scandir w (listing dir))))
                  [lit; upper lit]).
Proof.
  intros Hdir Hlow Hup. rewrite upper_star.
  rewrite !glob_in_star by assumption.
  cbn [flat_map]. now rewrite app_nil_r, map_app.
Qed.

(** The enumeration, as a selection among the names of the directory. *)
Lemma video_files_in_names (w : world) dir :
  has_magic (listed_dir dir) = false ->
  video_files_in w dir =
  map (Path.join (listed_dir dir))
      (flat_map (fun suffix =>
                   filter (has_suffix suffix)
                          (visible (scandir w (listing dir))))
                video_suffixes).
Proof.
  intros Hdir. unfold video_files_in, video_extensions.
  cbn [flat_map].
  rewrite !(glob_in_both w dir _ Hdir) by reflexivity.
  rewrite app_nil_r, <- !map_app, <- !flat_map_app.
  reflexivity.
Qed.

(** Two endings of one name: one is an ending of the other. *)
Lemma has_suffix_both s1 s2 name :
  has_suffix s1 name = true -> has_suffix s2 name = true ->
  has_suffix s1 s2 = true \/ has_suffix s2 s1 = true.
Proof.
  induction name as [|d name IH]; cbn [has_suffix]; intros H1 H2.
  - rewrite orb_false_r in H1, H2.
    apply String.eqb_eq in H1, H2. subst. now left.
  - apply orb_true_iff in H1 as [H1|H1].
    + apply String.eqb_eq in H1. subst s1. right.
      cbn [has_suffix]. exact H2.
    + apply orb_true_iff in H2 as [H2|H2].
      * apply String.eqb_eq in H2. subst s2. left.
        cbn [has_suffix]. rewrite H1. apply orb_true_r.
      * now apply IH.
Qed.

(** Endings that are apart select disjoint parts of a list of names. *)
Lemma apart_selection suffixes (names : list string) :
  apart suffixes = true -> NoDup names ->
  NoDup (flat_map (fun suffix => filter (has_suffix suffix) names)
                  suffixes).
Proof.
  intros Hapart Hnames.
  induction suffixes as [|s rest IH]; cbn [flat_map]; [constructor|].
  cbn [apart] in Hapart. apply andb_true_iff in Hapart as [Hs Hrest].
  apply NoDup_app; [now apply NoDup_filter | now apply IH |].
  intros name Hin Hin'.
  apply filter_In in Hin as [_ Hsuf].
  apply in_flat_map in Hin' as (t & Ht & Hin').
  apply filter_In in Hin' as [_ Hsuf'].
  rewrite forallb_forall in Hs. specialize (Hs t Ht).
  apply andb_true_iff in Hs as [Hst Hts].
  apply negb_true_iff in Hst, Hts.
  destruct (has_suffix_both s t name Hsuf Hsuf'); congruence.
Qed.

Lemma append_inv_head (s a b : string) :
  (s ++ a = s ++ b)%string -> a = b.
Proof.
  induction s as [|c s IH]; simpl; [trivial|].
  intros E. injection E as E. now apply IH.
Qed.

Lemma join_injective dir a b :
  mem_char sep a = false -> mem_char sep b = false ->
  Path.join dir a = Path.join dir b -> a = b.
Proof.
  intros Ha Hb.
  rewrite !join_relative by now apply starts_with_sep_mem.
  apply append_inv_head.
Qed.

(** C2, as the script has it. For an input directory whose path has no
    wildcard, the enumeration selects, among the entry names that do not
    start with a dot, those that end with one of the seven extensions
    written in lower case or in upper case, compared as they are:
    pattern by pattern in the order of the loop, each joined to the
    directory.  A name whose extension mixes the cases is not selected.
    Under this comparison no name answers two patterns, so a path
    occurs once when the names of the directory are distinct. *)
Theorem enumeration_lower_and_upper input_dir (st : state world) :
  has_magic (listed_dir input_dir) = false ->
  let names := visible (scandir (os_world st) (listing input_dir)) in
  find_video_files input_dir video_extensions [] st
  = (Ret (video_files_in (os_world st) input_dir), st) /\
  video_files_in (os_world st) input_dir
  = map (Path.join (listed_dir input_dir))
        (flat_map (fun suffix => filter (has_suffix suffix) names)
                  video_suffixes) /\
  (entry_names (scandir (os_world st) (listing input_dir)) ->
   NoDup (video_files_in (os_world st) input_dir)).
Proof.
  intros Hdir names. split; [|split].
  - now rewrite find_video_files_run.
  - now apply video_files_in_names.
  - intros [Hdistinct Hplain].
    rewrite video_files_in_names by assumption. fold names.
    assert (Hsel : forall x,
               In x (flat_map (fun suffix =>
                                 filter (has_suffix suffix) names)
                              video_suffixes) ->
               mem_char sep x = false).
    { intros x Hx. apply in_flat_map in Hx as (suffix & _ & Hx).
      apply filter_In in Hx as [Hx _]. unfold names, visible in Hx.
      apply filter_In in Hx as [Hx _].
      rewrite Forall_forall in Hplain. now apply Hplain. }
    apply NoDup_map_NoDup_ForallPairs.
    + intros a b Ha Hb. apply join_injective; now apply Hsel.
    + apply apart_selection; [reflexivity|].
      unfold names, visible. now apply NoDup_filter.
Qed.

End Enumeration.

(** * Runs on the small operating system *)

(** ** Paths and patterns *)

Example splitext_movie : Path.splitext "movie.mkv" = ("movie", ".mkv").
Proof. reflexivity. Qed.

Example splitext_only_dots : Path.splitext "...mkv" = ("...mkv", "").
Proof. reflexivity. Qed.

Example splitext_last_component : Path.splitext "a.b/c" = ("a.b/c", "").
Proof. reflexivity. Qed.

Example splitext_last_dot :
  Path.splitext "/x.y/archive.tar.mp4" = ("/x.y/archive.tar", ".mp4").
Proof. reflexivity. Qed.

Example dirname_of_file : Path.dirname "/out/movie.wav" = "/out".
Proof. reflexivity. Qed.

Example dirname_of_name : Path.dirname "movie.wav" = "".
Proof. reflexivity. Qed.

Example join_adds_separator : Path.join "/out" "" = "/out/".
Proof. reflexivity. Qed.

Example upper_pattern : Str.upper "*.webm" = "*.WEBM".
Proof. reflexivity. Qed.

Example fnmatch_is_case_sensitive :
  fnmatch "*.mp4" "b.mp4" = true /\ fnmatch "*.mp4" "c.Mp4" = false /\
  fnmatch "*.MP4" "c.Mp4" = false.
Proof. repeat split. Qed.

(** ** The enumeration *)

(** C2, the example of the claim. In a directory that holds [a.MP4],
    [b.mp4] and [c.Mp4] the enumeration finds two files, not three:
    [c.Mp4] answers neither [*.mp4] nor [*.MP4]. *)
Lemma mixed_case_extension_missed :
  video_files_in (sys := Toy.os (Toy.calm [])) Toy.mixed_case
                 (Path.join "/in" "")
  = ["/in/b.mp4"; "/in/a.MP4"]
  /\ length (video_files_in (sys := Toy.os (Toy.calm [])) Toy.mixed_case
                            (Path.join "/in" "")) <> 3.
Proof. split; [reflexivity|discriminate]. Qed.

Lemma enumeration_lower_and_upper_witness :
  has_magic (listed_dir "/in/") = false /\
  let st := Toy.start Toy.mixed_case in
  let names := visible (scandir (OS := Toy.os (Toy.calm []))
                                (os_world st) (listing "/in/")) in
  find_video_files (sys := Toy.os (Toy.calm []))
                   "/in/" video_extensions [] st
  = (Ret (video_files_in (sys := Toy.os (Toy.calm []))
                         (os_world st) "/in/"), st) /\
  video_files_in (sys := Toy.os (Toy.calm [])) (os_world st) "/in/"
  = map (Path.join (listed_dir "/in/"))
        (flat_map (fun suffix => filter (has_suffix suffix) names)
                  video_suffixes) /\
  (entry_names (scandir (OS := Toy.os (Toy.calm []))
                        (os_world st) (listing "/in/")) ->
   NoDup (video_files_in (sys := Toy.os (Toy.calm [])) (os_world st) "/in/")).
Proof.
  split; [reflexivity|].
  apply (enumeration_lower_and_upper (sys := Toy.os (Toy.calm []))
                                     "/in/" (Toy.start Toy.mixed_case)).
  reflexivity.
Defined.

(** ** One conversion *)

(** C4, where the claim fails. [/in/clips.mp4] is a directory, not a
    regular file; it exists, so the conversion does not answer that the
    input is missing: it makes the output directory and starts ffmpeg. *)
Lemma directory_input_reaches_engine :
  let st := Toy.start Toy.with_directory in
  let run := convert_video_to_audio (sys := Toy.os (Toy.calm []))
               "/in/clips.mp4" "/out/clips.mp3" "mp3" "192k" false st in
  isfile_in (sys := Toy.os (Toy.calm [])) (os_world st) "/in/clips.mp4"
  = false /\
  run <> input_missing "/in/clips.mp4" st /\
  calls (snd run)
  = [Invocation (ffmpeg_cmd "/in/clips.mp4" "/out/clips.mp3" "mp3" "192k")
                true] /\
  os_world (snd run) = Toy.with_directory ++ [("/out", Directory)].
Proof. repeat split. discriminate. Qed.

Lemma missing_input_returns_false_witness :
  let st := Toy.start Toy.three in
  exists_in (sys := Toy.os (Toy.calm [])) (os_world st) "/in/four.mp4"
  = false /\
  convert_video_to_audio (sys := Toy.os (Toy.calm []))
                         "/in/four.mp4" "/out/four.mp3" "mp3" "192k" false st
  = input_missing "/in/four.mp4" st.
Proof.
  split; [reflexivity|].
  apply (missing_input_returns_false (sys := Toy.os (Toy.calm []))).
  reflexivity.
Defined.

(** C5, where the claim fails. Nothing can be created at [/sealed]: the
    conversion raises [OSError] instead of returning a failure, the loop
    of the batch ends with it before the second file is looked at, and so
    does [batch_convert]. *)
Lemma unwritable_parent_raises :
  let st := Toy.start Toy.three in
  convert_video_to_audio (sys := Toy.os Toy.sealed)
                         "/in/one.mp4" "/sealed/one.mp3" "mp3" "192k" false st
  = (Raise (OSError "/sealed"), st) /\
  convert_each (sys := Toy.os Toy.sealed) "/sealed/" "mp3" "192k" false
               ["/in/one.mp4"; "/in/two.mp4"] 0 0 st
  = (Raise (OSError "/sealed"), st) /\
  batch_convert (sys := Toy.os Toy.sealed) "/in" "/sealed" "mp3" "192k"
                false st
  = (Raise (OSError "/sealed/"), st).
Proof. repeat split. Qed.

Lemma output_parent_made_or_raises_witness :
  let st := Toy.start Toy.three in
  exists_in (sys := Toy.os Toy.sealed) (os_world st) "/in/one.mp4" = true /\
  (convert_video_to_audio (sys := Toy.os Toy.sealed)
                          "/in/one.mp4" "/sealed/one.mp3" "mp3" "192k" false st
   = (Raise (OSError (output_parent "/sealed/one.mp3")), st)
   /\ forall output_dir rest s f,
       "/sealed/one.mp3" = derive_output_path output_dir "mp3" "/in/one.mp4" ->
       convert_each (sys := Toy.os Toy.sealed) output_dir "mp3" "192k" false
                    ("/in/one.mp4" :: rest) s f st
       = (Raise (OSError (output_parent "/sealed/one.mp3")), st)).
Proof.
  split; [reflexivity|].
  exact (output_parent_made_or_raises
           (sys := Toy.os Toy.sealed)
           "/in/one.mp4" "/sealed/one.mp3" "mp3" "192k" false
           (Toy.start Toy.three) eq_refl).
Defined.

(** When the directory can be made the command is started in the world
    that has it. *)
Example output_parent_made :
  let st := Toy.start Toy.three in
  os_world (snd (convert_video_to_audio
                   (sys := Toy.os (Toy.calm []))
                   "/in/one.mp4" "/out/a/one.mp3" "mp3" "192k" false st))
  = Toy.three ++ [("/out", Directory); ("/out/a", Directory);
                  ("/out/a/one.mp3", RegularFile)].
Proof. reflexivity. Qed.

(** C7 on a run. ffmpeg fails on [/in/two.mp4] and writes its reason on
    the error stream.  Not verbose: the stream is piped, and its text is
    neither in the log nor on the terminal.  Verbose: the text reaches the
    terminal as ffmpeg writes it; the log has the command and the error
    record, and no record of details. *)
Example failure_text_not_in_log :
  let cmd := ffmpeg_cmd "/in/two.mp4" "/out/two.mp3" "mp3" "192k" in
  let quiet := convert_video_to_audio
                 (sys := Toy.os Toy.second_broken)
                 "/in/two.mp4" "/out/two.mp3" "mp3" "192k" false
                 (Toy.start Toy.three) in
  let loud := convert_video_to_audio
                (sys := Toy.os Toy.second_broken)
                "/in/two.mp4" "/out/two.mp3" "mp3" "192k" true
                (Toy.start Toy.three) in
  fst quiet = Ret false /\
  log (snd quiet) = [(ERROR, ConversionError cmd 1)] /\
  calls (snd quiet) = [Invocation cmd true] /\
  console (snd quiet) = [] /\
  fst loud = Ret false /\
  log (snd loud) = [(INFO, RunningCommand cmd);
                    (ERROR, ConversionError cmd 1)] /\
  calls (snd loud) = [Invocation cmd false] /\
  console (snd loud) = [""; "Invalid data found when processing input"].
Proof. repeat split. Qed.

Lemma engine_failure_detail_not_reported_witness :
  let st := Toy.start Toy.three in
  let cmd := ffmpeg_cmd "/in/two.mp4" "/out/two.mp3" "mp3" "192k" in
  let w' := Toy.three ++ [("/out", Directory)] in
  let p := Completed 1%Z "" "Invalid data found when processing input" w' in
  exists_in (sys := Toy.os Toy.second_broken) (os_world st) "/in/two.mp4"
  = true /\
  mkdirs (OS := Toy.os Toy.second_broken) (os_world st)
         (output_parent "/out/two.mp3") = Some w' /\
  spawn (OS := Toy.os Toy.second_broken) w' cmd = Some p /\
  returncode p <> 0%Z /\
  convert_video_to_audio (sys := Toy.os Toy.second_broken)
                         "/in/two.mp4" "/out/two.mp3" "mp3" "192k" false st
  = engine_failed cmd false st p.
Proof.
  refine (conj eq_refl (conj eq_refl (conj eq_refl (conj _ _))));
    [discriminate|].
  apply (engine_failure_detail_not_reported
           (sys := Toy.os Toy.second_broken)
           "/in/two.mp4" "/out/two.mp3" "mp3" "192k" false
           (Toy.start Toy.three)
           (w' := Toy.three ++ [("/out", Directory)])
           (p := Completed 1%Z "" "Invalid data found when processing input"
                           (Toy.three ++ [("/out", Directory)])));
    [reflexivity | reflexivity | reflexivity | discriminate].
Defined.

Lemma quality_only_for_mp3_witness :
  let st := Toy.start Toy.three in
  "wav" <> "mp3" /\
  ffmpeg_cmd "/in/one.mp4" "/out/one.wav" "wav" "128k" =
  ffmpeg_cmd "/in/one.mp4" "/out/one.wav" "wav" "320k" /\
  convert_video_to_audio (sys := Toy.os (Toy.calm []))
                         "/in/one.mp4" "/out/one.wav" "wav" "128k" false st =
  convert_video_to_audio (sys := Toy.os (Toy.calm []))
                         "/in/one.mp4" "/out/one.wav" "wav" "320k" false st /\
  batch_convert (sys := Toy.os (Toy.calm []))
                "/in/one.mp4" "/out/one.wav" "wav" "128k" false st =
  batch_convert (sys := Toy.os (Toy.calm []))
                "/in/one.mp4" "/out/one.wav" "wav" "320k" false st.
Proof.
  split; [discriminate|].
  apply (quality_only_for_mp3 (sys := Toy.os (Toy.calm []))).
  discriminate.
Defined.

(** With mp3 the quality is the bitrate, and the commands differ. *)
Example quality_is_the_mp3_bitrate :
  ffmpeg_cmd "a.mp4" "a.mp3" "mp3" "128k"
  = ["ffmpeg"; "-i"; "a.mp4"; "-vn"; "-c:a"; "libmp3lame"; "-b:a"; "128k";
     "a.mp3"]
  /\ ffmpeg_cmd "a.mp4" "a.mp3" "mp3" "128k"
     <> ffmpeg_cmd "a.mp4" "a.mp3" "mp3" "320k".
Proof. split; [reflexivity|discriminate]. Qed.

Example unknown_format_copies :
  ffmpeg_cmd "a.mp4" "a.ogg" "ogg" "192k"
  = ["ffmpeg"; "-i"; "a.mp4"; "-vn"; "-c:a"; "copy"; "a.ogg"].
Proof. reflexivity. Qed.

(** ** The batch *)

(** C3, where the claim fails. ffmpeg cannot be started: the conversion
    of the first of three videos raises, the batch ends with the
    exception and returns no counts, and the two other videos are not
    looked at. *)
Lemma missing_engine_ends_batch :
  let run := batch_convert (sys := Toy.os Toy.absent)
                           "/in" "/out" "mp3" "192k" false
                           (Toy.start Toy.three) in
  length (video_files_in (sys := Toy.os Toy.absent)
                         (Toy.three ++ [("/out", Directory)])
                         (Path.join "/in" "")) = 3 /\
  fst run = Raise (FileNotFoundError "ffmpeg") /\
  (forall counts, fst run <> Ret counts) /\
  calls (snd run)
  = [Invocation (ffmpeg_cmd "/in/one.mp4" "/out/one.mp3" "mp3" "192k") true].
Proof. repeat split. discriminate. Qed.

Lemma batch_ends_only_on_exception_witness :
  let st := Toy.start Toy.three in
  let w' := Toy.three ++ [("/out", Directory)] in
  mkdirs (OS := Toy.os Toy.second_broken) (os_world st) (Path.join "/out" "")
  = Some w' /\
  let video_files := video_files_in (sys := Toy.os Toy.second_broken)
                                    w' (Path.join "/in" "") in
  exists st1,
    os_world st1 = w' /\
    ((exists oks st2 st',
         Processed (sys := Toy.os Toy.second_broken)
                   (Path.join "/out" "") "mp3" "192k" false
                   video_files st1 oks st2 /\
         length oks = length video_files /\
         batch_convert (sys := Toy.os Toy.second_broken)
                       "/in" "/out" "mp3" "192k" false st
         = (Ret (successes oks, failures oks), st') /\
         successes oks + failures oks = length video_files /\
         (length video_files = 3 -> failures oks = 1 -> successes oks = 2))
     \/
     (exists before video_file rest oks st2 e st',
         video_files = before ++ video_file :: rest /\
         Processed (sys := Toy.os Toy.second_broken)
                   (Path.join "/out" "") "mp3" "192k" false
                   before st1 oks st2 /\
         convert_video_to_audio
           (sys := Toy.os Toy.second_broken)
           video_file
           (derive_output_path (Path.join "/out" "") "mp3" video_file)
           "mp3" "192k" false st2 = (Raise e, st') /\
         batch_convert (sys := Toy.os Toy.second_broken)
                       "/in" "/out" "mp3" "192k" false st
         = (Raise e, st'))).
Proof.
  split; [reflexivity|].
  apply (batch_ends_only_on_exception
           (sys := Toy.os Toy.second_broken)
           "/in" "/out" "mp3" "192k" false (Toy.start Toy.three)
           (w' := Toy.three ++ [("/out", Directory)])).
  reflexivity.
Defined.

(** Three videos of which one fails, at each place in turn: two
    successes and one failure, and the files after the failure are
    converted. *)
Example one_failure_at_any_place :
  let batch broken :=
    batch_convert (sys := Toy.os (Toy.calm [broken]))
                  "/in" "/out" "mp3" "192k" false (Toy.start Toy.three) in
  fst (batch "/in/one.mp4") = Ret (2, 1) /\
  fst (batch "/in/two.mp4") = Ret (2, 1) /\
  fst (batch "/in/three.mp4") = Ret (2, 1) /\
  map argv (calls (snd (batch "/in/one.mp4")))
  = [ffmpeg_cmd "/in/one.mp4" "/out/one.mp3" "mp3" "192k";
     ffmpeg_cmd "/in/two.mp4" "/out/two.mp3" "mp3" "192k";
     ffmpeg_cmd "/in/three.mp4" "/out/three.mp3" "mp3" "192k"] /\
  os_world (snd (batch "/in/one.mp4"))
  = Toy.three ++ [("/out", Directory); ("/out/two.mp3", RegularFile);
                  ("/out/three.mp3", RegularFile)].
Proof. repeat split. Qed.

Lemma no_video_gives_empty_report_witness :
  let st := Toy.start Toy.no_video in
  let w' := Toy.no_video ++ [("/out", Directory)] in
  mkdirs (OS := Toy.os (Toy.calm [])) (os_world st) (Path.join "/out" "")
  = Some w' /\
  video_files_in (sys := Toy.os (Toy.calm [])) w' (Path.join "/in" "") = [] /\
  batch_convert (sys := Toy.os (Toy.calm []))
                "/in" "/out" "mp3" "192k" false st
  = (Ret (0, 0),
     State w' (log st ++ [(WARNING, NoVideoFound (Path.join "/in" ""))])
           (calls st) (console st)) /\
  filter is_error
         (log (snd (batch_convert (sys := Toy.os (Toy.calm []))
                                  "/in" "/out" "mp3" "192k" false st)))
  = filter is_error (log st).
Proof.
  refine (conj eq_refl (conj eq_refl _)).
  apply (no_video_gives_empty_report
           (sys := Toy.os (Toy.calm []))
           "/in" "/out" "mp3" "192k" false (Toy.start Toy.no_video)
           (w' := Toy.no_video ++ [("/out", Directory)]));
    reflexivity.
Defined.

(** ** The entry point *)

Lemma batch_input_must_be_directory_witness :
  let args := Build_Args "/nowhere" "/out" "mp3" "192k" true false in
  let good := Build_Args "/in" "/out" "mp3" "192k" true false in
  let st := Toy.start Toy.no_video in
  batch args = true /\
  isdir_in (sys := Toy.os (Toy.calm []))
           (os_world (snd (check_ffmpeg (sys := Toy.os (Toy.calm [])) st)))
           (input args) = false /\
  (exit_status (fst (main (sys := Toy.os (Toy.calm [])) (Parsed args) st))
   = 1%Z /\
   os_world (snd (main (sys := Toy.os (Toy.calm [])) (Parsed args) st))
   = os_world (snd (check_ffmpeg (sys := Toy.os (Toy.calm [])) st)) /\
   calls (snd (main (sys := Toy.os (Toy.calm [])) (Parsed args) st))
   = calls (snd (check_ffmpeg (sys := Toy.os (Toy.calm [])) st)) /\
   forall args' (st' : state Toy.world),
     empty_batch_run (sys := Toy.os (Toy.calm [])) args' st' ->
     exit_status (fst (main (sys := Toy.os (Toy.calm [])) (Parsed args') st'))
     = 0%Z) /\
  empty_batch_run (sys := Toy.os (Toy.calm [])) good st.
Proof.
  refine (conj eq_refl (conj eq_refl (conj _ _))).
  - apply (batch_input_must_be_directory
             (sys := Toy.os (Toy.calm []))
             (Build_Args "/nowhere" "/out" "mp3" "192k" true false)
             (Toy.start Toy.no_video)); reflexivity.
  - repeat split. exists (Toy.no_video ++ [("/out", Directory)]).
    split; reflexivity.
Defined.

(** The two runs, as the script logs them. *)
Example batch_runs_told_apart :
  let run input :=
    main (sys := Toy.os (Toy.calm []))
         (Parsed (Build_Args input "/out" "mp3" "192k" true false))
         (Toy.start Toy.no_video) in
  fst (run "/nowhere") = Raise (SystemExit 1) /\
  log (snd (run "/nowhere")) = [(ERROR, InputMustBeDirectory "/nowhere")] /\
  fst (run "/in") = Ret tt /\
  log (snd (run "/in")) = [(WARNING, NoVideoFound "/in/");
                           (INFO, Summary 0 0); (INFO, AllDone)] /\
  fst (batch_convert (sys := Toy.os (Toy.calm []))
                     "/nowhere" "/out" "mp3" "192k" false
                     (Toy.start Toy.no_video)) = Ret (0, 0).
Proof. repeat split. Qed.

(** * More on the script *)

(** ** Success, and what a conversion lets through *)

Section Outcomes.
Context {world : Type} {sys : OS world}.

(** The state [check_ffmpeg] leaves. *)
Lemma check_ffmpeg_state (st : state world) :
  exists installed st',
    check_ffmpeg st = (Ret installed, st') /\
    calls st' = calls st ++ [probe] /\
    log st' = log st ++ (if installed then [] else complaint).
Proof.
  rewrite check_ffmpeg_run. cbv zeta.
  destruct (spawn (os_world st) ["ffmpeg"; "-version"]) as [p|];
    [destruct (Z.eqb (returncode p) 0)|];
    eexists _, _; (split; [reflexivity|]); simpl;
    now rewrite ?app_nil_r.
Qed.

(** X1. [check_ffmpeg] answers [False] for an ffmpeg that is missing and
    for one whose version call exits with a non-zero status: it catches
    the exception of either, logs its two error records and returns.  It
    answers [True] when the call exits with status 0, and logs nothing
    then.  The call is made once, with the streams piped, so that nothing
    of it reaches the terminal. *)
Theorem check_ffmpeg_verdict (st : state world) :
  (spawn (os_world st) ["ffmpeg"; "-version"] = None ->
   check_ffmpeg st
   = (Ret false,
      State (os_world st) (log st ++ complaint) (calls st ++ [probe])
            (console st)))
  /\
  (forall p,
      spawn (os_world st) ["ffmpeg"; "-version"] = Some p ->
      check_ffmpeg st
      = (Ret (Z.eqb (returncode p) 0),
         State (after p)
               (log st ++ (if Z.eqb (returncode p) 0 then [] else complaint))
               (calls st ++ [probe]) (console st))).
Proof.
  rewrite check_ffmpeg_run. cbv zeta. split.
  - now intros ->.
  - intros p ->. destruct (Z.eqb (returncode p) 0); [|reflexivity].
    now rewrite app_nil_r.
Qed.

(** X2. A conversion answers [True] in one case only: the input exists,
    the parent of the output could be made, ffmpeg was started and exited
    with status 0. *)
Theorem success_means_zero_exit
        input_path output_path audio_format quality verbose
        (st : state world) :
  fst (convert_video_to_audio input_path output_path audio_format quality
                              verbose st) = Ret true
  <->
  exists_in (os_world st) input_path = true /\
  exists w' p,
    mkdirs (os_world st) (output_parent output_path) = Some w' /\
    spawn w' (ffmpeg_cmd input_path output_path audio_format quality)
    = Some p /\
    returncode p = 0%Z.
Proof.
  rewrite convert_run.
  destruct (exists_in (os_world st) input_path).
  - destruct (mkdirs (os_world st) (output_parent output_path)) as [w'|].
    + rewrite execute_run. cbv zeta. simpl.
      destruct (spawn w' _) as [p|] eqn:Hp.
      * destruct (Z.eqb (returncode p) 0) eqn:E; simpl; split.
        -- intros _. split; [reflexivity|]. exists w', p.
           repeat split; [assumption|now apply Z.eqb_eq].
        -- reflexivity.
        -- discriminate.
        -- intros (_ & w & p' & [= <-] & Hp' & Hz).
           rewrite Hp in Hp'. injection Hp' as <-.
           apply Z.eqb_neq in E. contradiction.
      * simpl. split; [discriminate|].
        intros (_ & w & p' & [= <-] & Hp' & _). congruence.
    + simpl. split; [discriminate|].
      intros (_ & w & p' & Hw & _). discriminate.
  - simpl. split; [discriminate|]. intros [H _]. discriminate.
Qed.

(** What a successful conversion leaves: the world of ffmpeg, and a record
    with the base names of the two files. *)
Lemma convert_success input_path output_path audio_format quality verbose
      (st : state world) w' p :
  let cmd := ffmpeg_cmd input_path output_path audio_format quality in
  exists_in (os_world st) input_path = true ->
  mkdirs (os_world st) (output_parent output_path) = Some w' ->
  spawn w' cmd = Some p ->
  returncode p = 0%Z ->
  convert_video_to_audio input_path output_path audio_format quality
                         verbose st
  = (Ret true,
     State (after p)
           ((log st ++ announced cmd verbose)
              ++ [(INFO, ConversionDone (Path.basename input_path)
                                        (Path.basename output_path))])
           (calls st ++ [Invocation cmd (negb verbose)])
           (console st ++ surfaced verbose p)).
Proof.
  cbv zeta. intros Hfound Hdir Hrun Hstatus.
  rewrite convert_run, Hfound, Hdir, execute_run. cbv zeta. simpl.
  rewrite Hrun. apply Z.eqb_eq in Hstatus. now rewrite Hstatus.
Qed.

Lemma convert_escaping input_path output_path audio_format quality verbose
      (st : state world) e st' :
  convert_video_to_audio input_path output_path audio_format quality
                         verbose st = (Raise e, st') ->
  escaping e.
Proof.
  rewrite convert_run.
  destruct (exists_in (os_world st) input_path); [|discriminate].
  destruct (mkdirs (os_world st) (output_parent output_path)) as [w'|].
  - rewrite execute_run. cbv zeta. simpl.
    destruct (spawn w' _) as [p|].
    + destruct (Z.eqb (returncode p) 0); discriminate.
    + intros [= <- _]. now right.
  - intros [= <- _]. left. eauto.
Qed.

Lemma convert_each_escaping output_dir audio_format quality verbose files :
  forall s f (st : state world) e st',
    convert_each output_dir audio_format quality verbose files s f st
    = (Raise e, st') ->
    escaping e.
Proof.
  induction files as [|vf rest IH]; intros s f st e st'; simpl.
  - discriminate.
  - unfold bind.
    destruct (convert_video_to_audio vf _ audio_format quality verbose st)
      as [[ok|e0] st1] eqn:E.
    + destruct ok; apply IH.
    + intros [= <- _]. eapply convert_escaping; eassumption.
Qed.

Lemma batch_convert_escaping
      input_dir output_dir audio_format quality verbose
      (st : state world) e :
  fst (batch_convert input_dir output_dir audio_format quality verbose st)
  = Raise e ->
  escaping e.
Proof.
  rewrite batch_convert_run.
  destruct (mkdirs (os_world st) (Path.join output_dir "")) as [w'|].
  - destruct (video_files_in w' (Path.join input_dir "")) as [|vf rest];
      [discriminate|]. cbv zeta.
    destruct (convert_each _ _ _ _ (vf :: rest) 0 0 _)
      as [[counts|e0] st1] eqn:E; [discriminate|].
    simpl. intros [= <-]. eapply convert_each_escaping; eassumption.
  - simpl. intros [= <-]. left. eauto.
Qed.

(** X4. An ffmpeg that cannot be started is not a failed conversion: the
    [FileNotFoundError] is not caught.  The conversion raises it after the
    parent of the output was made, and the loop of a batch that was
    running it ends with it. *)
Theorem missing_engine_escapes
        input_path output_path audio_format quality verbose
        (st : state world) w' :
  let cmd := ffmpeg_cmd input_path output_path audio_format quality in
  exists_in (os_world st) input_path = true ->
  mkdirs (os_world st) (output_parent output_path) = Some w' ->
  spawn w' cmd = None ->
  convert_video_to_audio input_path output_path audio_format quality
                         verbose st
  = (Raise (FileNotFoundError "ffmpeg"),
     State w' (log st ++ announced cmd verbose)
           (calls st ++ [Invocation cmd (negb verbose)]) (console st))
  /\ forall output_dir rest s f,
      output_path = derive_output_path output_dir audio_format input_path ->
      fst (convert_each output_dir audio_format quality verbose
                        (input_path :: rest) s f st)
      = Raise (FileNotFoundError "ffmpeg").
Proof.
  cbv zeta. intros Hfound Hdir Hrun.
  assert (E : convert_video_to_audio input_path output_path audio_format
                                     quality verbose st
              = (Raise (FileNotFoundError "ffmpeg"),
                 State w' (log st ++ announced
                                    (ffmpeg_cmd input_path output_path
                                                audio_format quality) verbose)
                       (calls st ++
                          [Invocation (ffmpeg_cmd input_path output_path
                                                  audio_format quality)
                                      (negb verbose)]) (console st))).
  { rewrite convert_run, Hfound, Hdir, execute_run. cbv zeta. simpl.
    now rewrite Hrun. }
  split; [exact E|]. intros output_dir rest s f ->.
  now rewrite (convert_each_raises _ _ _ _ _ rest s f _ E).
Qed.

End Outcomes.

(** ** More on the batch *)

Section MoreBatch.
Context {world : Type} {sys : OS world}.

Lemma joined_again a : joined (joined a) = joined a.
Proof.
  destruct (joined_shape a) as [E|E]; unfold joined at 1.
  - now rewrite E.
  - now rewrite E, orb_true_r.
Qed.

Lemma join_nothing a : Path.join a "" = joined a.
Proof. rewrite join_relative by reflexivity. apply append_empty. Qed.

(** X5. [batch_convert] puts a separator at the end of both directories
    itself (lines 125-126): a directory given with its final separator
    and the same directory given without it run the same batch. *)
Theorem final_separator_is_optional
        input_dir output_dir audio_format quality verbose
        (st : state world) :
  batch_convert (Path.join input_dir "") (Path.join output_dir "")
                audio_format quality verbose st
  = batch_convert input_dir output_dir audio_format quality verbose st.
Proof.
  rewrite !batch_convert_run, !join_nothing, !joined_again. reflexivity.
Qed.

Lemma convert_quiet input_path output_path audio_format quality
      (st : state world) :
  console (snd (convert_video_to_audio input_path output_path audio_format
                                       quality false st))
  = console st.
Proof.
  rewrite convert_run.
  destruct (exists_in (os_world st) input_path); [|reflexivity].
  destruct (mkdirs (os_world st) (output_parent output_path)) as [w'|];
    [|reflexivity].
  rewrite execute_run. cbv zeta. simpl.
  destruct (spawn w' _) as [p|]; [|reflexivity].
  destruct (Z.eqb (returncode p) 0); simpl; apply app_nil_r.
Qed.

Lemma convert_each_quiet output_dir audio_format quality files :
  forall s f (st : state world),
    console (snd (convert_each output_dir audio_format quality false
                               files s f st))
    = console st.
Proof.
  induction files as [|vf rest IH]; intros s f st; simpl; [reflexivity|].
  unfold bind.
  pose proof (convert_quiet
                vf (derive_output_path output_dir audio_format vf)
                audio_format quality st) as Hq.
  destruct (convert_video_to_audio vf _ audio_format quality false st)
    as [[ok|e] st1]; simpl in Hq.
  - destruct ok; rewrite IH; exact Hq.
  - exact Hq.
Qed.

(** X6. A run that is not verbose writes nothing on the terminal: every
    process of a conversion and of a whole batch has its streams piped,
    whatever it prints and however it ends. *)
Theorem quiet_run_keeps_terminal
        input_dir output_dir audio_format quality (st : state world) :
  console (snd (batch_convert input_dir output_dir audio_format quality
                              false st))
  = console st
  /\ forall input_path output_path,
      console (snd (convert_video_to_audio input_path output_path
                                           audio_format quality false st))
      = console st.
Proof.
  split; [|intros; apply convert_quiet].
  rewrite batch_convert_run.
  destruct (mkdirs (os_world st) (Path.join output_dir "")) as [w'|];
    [|reflexivity].
  destruct (video_files_in w' (Path.join input_dir "")) as [|vf rest];
    [reflexivity|]. cbv zeta.
  pose proof (convert_each_quiet
                (Path.join output_dir "") audio_format quality (vf :: rest)
                0 0
                (State w' (log st ++ [(INFO, BatchStart (length (vf :: rest)))])
                       (calls st) (console st))) as Hq.
  destruct (convert_each _ _ _ _ (vf :: rest) 0 0 _) as [[counts|e] st1];
    exact Hq.
Qed.

Lemma derive_output_path_stem output_dir audio_format dir stem suffix :
  In suffix video_suffixes ->
  Str.truthy stem = true -> ishidden stem = false ->
  Str.mem_char Str.sep stem = false ->
  derive_output_path output_dir audio_format (Path.join dir (stem ++ suffix))
  = Path.join output_dir (stem ++ "." ++ audio_format).
Proof.
  intros Hin Hne Hvis Hsep.
  destruct (@video_suffix_shape suffix Hin) as (e & -> & Hsepe & Hdot).
  unfold derive_output_path. rewrite basename_join.
  - now rewrite splitext_stem.
  - rewrite mem_char_app, Hsep. simpl. exact Hsepe.
Qed.

(** X7. The output name keeps the stem of the input and nothing of its
    extension or directory: two videos with one stem, [movie.mp4] and
    [movie.avi] say, are converted to one and the same output path, and
    the loop does not tell them apart. *)
Theorem same_stem_same_output
        output_dir audio_format dir1 dir2 stem suffix1 suffix2 :
  In suffix1 video_suffixes -> In suffix2 video_suffixes ->
  Str.truthy stem = true -> ishidden stem = false ->
  Str.mem_char Str.sep stem = false ->
  derive_output_path output_dir audio_format (Path.join dir1 (stem ++ suffix1))
  = derive_output_path output_dir audio_format
                       (Path.join dir2 (stem ++ suffix2)).
Proof.
  intros H1 H2 Hne Hvis Hsep.
  now rewrite !derive_output_path_stem.
Qed.

Lemma in_selection (names : list string) name :
  In name (flat_map (fun suffix => filter (has_suffix suffix) (visible names))
                    video_suffixes)
  <-> In name names /\ matches_video name = true.
Proof.
  rewrite in_flat_map. unfold matches_video, visible. split.
  - intros (suffix & Hs & Hin).
    apply filter_In in Hin as [Hin Hsuf].
    apply filter_In in Hin as [Hin Hvis].
    split; [assumption|]. rewrite Hvis, andb_true_l.
    apply existsb_exists. eauto.
  - intros [Hin Hm]. apply andb_true_iff in Hm as [Hvis Hex].
    apply existsb_exists in Hex as (suffix & Hs & Hsuf).
    exists suffix. split; [assumption|].
    apply filter_In. split; [|assumption].
    apply filter_In. now split.
Qed.

(** X8. What a batch takes from a directory whose path has no wildcard:
    the paths of the entries of that directory itself whose name does not
    start with a dot and ends with a video extension, and nothing else;
    no hidden file, nothing from a subdirectory. *)
Theorem enumerated_iff_matching (w : world) input_dir path :
  has_magic (listed_dir input_dir) = false ->
  (In path (video_files_in w input_dir)
   <-> exists name,
      In name (scandir w (listing input_dir)) /\
      matches_video name = true /\
      path = Path.join (listed_dir input_dir) name).
Proof.
  intros Hdir. rewrite video_files_in_names by assumption.
  rewrite in_map_iff. split.
  - intros (name & <- & Hin). apply in_selection in Hin as [Hin Hm].
    exists name. now repeat split.
  - intros (name & Hin & Hm & ->). exists name. split; [reflexivity|].
    apply in_selection. now split.
Qed.

Lemma nothing_selected (names : list string) :
  existsb matches_video names = false ->
  flat_map (fun suffix => filter (has_suffix suffix) (visible names))
           video_suffixes = [].
Proof.
  intros Hnone.
  destruct (flat_map _ video_suffixes) as [|name rest] eqn:E; [reflexivity|].
  assert (Hin : In name (flat_map (fun suffix =>
                                     filter (has_suffix suffix) (visible names))
                                  video_suffixes))
    by (rewrite E; now left).
  apply in_selection in Hin as [Hin Hm].
  assert (existsb matches_video names = true)
    by (apply existsb_exists; eauto).
  congruence.
Qed.

(** X9. [batch_convert] does not ask whether [input_dir] is a directory,
    or exists: when no listed name matches, which is the case of a
    directory without videos and of a path that cannot be listed alike,
    it has made the output directory, logs a warning and returns (0, 0)
    without starting ffmpeg. *)
Theorem no_matching_name_no_work
        input_dir output_dir audio_format quality verbose
        (st : state world) w' :
  has_magic (listed_dir (Path.join input_dir "")) = false ->
  mkdirs (os_world st) (Path.join output_dir "") = Some w' ->
  existsb matches_video (scandir w' (listing (Path.join input_dir "")))
  = false ->
  batch_convert input_dir output_dir audio_format quality verbose st
  = (Ret (0, 0),
     logged (State w' (log st) (calls st) (console st))
            [(WARNING, NoVideoFound (Path.join input_dir ""))]).
Proof.
  intros Hdir Hmk Hnone.
  rewrite batch_convert_run, Hmk, video_files_in_names by assumption.
  now rewrite nothing_selected.
Qed.

End MoreBatch.

(** ** More on the entry point *)

Section MoreMain.
Context {world : Type} {sys : OS world}.

(** [main] on a command line that argparse accepted. *)
Lemma main_parsed_run (args : Args) (st : state world) :
  main (Parsed args) st =
  match check_ffmpeg st with
  | (Ret true, st1) =>
      if batch args then
        if isdir_in (os_world st1) (input args) then
          match batch_convert (input args) (output args) (format args)
                              (quality args) (verbose args) st1 with
          | (Ret counts, st2) =>
              if (0 <? snd counts)%nat then
                (Raise (SystemExit 1),
                 logged st2 [(INFO, Summary (fst counts) (snd counts))])
              else
                (Ret tt,
                 logged st2 [(INFO, Summary (fst counts) (snd counts));
                             (INFO, AllDone)])
          | (Raise e, st2) => (Raise e, st2)
          end
        else
          (Raise (SystemExit 1),
           logged st1 [(ERROR, InputMustBeDirectory (input args))])
      else
        if isfile_in (os_world st1) (input args) then
          match convert_video_to_audio (input args) (output args)
                                       (format args) (quality args)
                                       (verbose args) st1 with
          | (Ret true, st2) => (Ret tt, logged st2 [(INFO, AllDone)])
          | (Ret false, st2) => (Raise (SystemExit 1), st2)
          | (Raise e, st2) => (Raise e, st2)
          end
        else
          (Raise (SystemExit 1),
           logged st1 [(ERROR, InputFileDoesNotExist (input args))])
  | (Ret false, st1) => (Raise (SystemExit 1), st1)
  | (Raise e, st1) => (Raise e, st1)
  end.
Proof.
  unfold main, bind.
  destruct (check_ffmpeg st) as [[[]|e] st1]; simpl; try reflexivity.
  destruct (batch args).
  - unfold os_path_isdir. simpl.
    destruct (isdir_in (os_world st1) (input args)); simpl; [|reflexivity].
    destruct (batch_convert _ _ _ _ _ st1) as [[counts|e] st2]; simpl;
      [|reflexivity].
    destruct (0 <? snd counts)%nat; simpl; [reflexivity|].
    unfold logged, logger_info, emit. simpl. now rewrite <- app_assoc.
  - unfold os_path_isfile. simpl.
    destruct (isfile_in (os_world st1) (input args)); simpl; [|reflexivity].
    destruct (convert_video_to_audio _ _ _ _ _ st1) as [[[]|e] st2];
      reflexivity.
Qed.

(** [main] on a command line at which argparse exits. *)
Lemma main_exits_run code (st : state world) :
  main (Exits code) st =
  match check_ffmpeg st with
  | (Ret true, st1) => (Raise (SystemExit code), st1)
  | (Ret false, st1) => (Raise (SystemExit 1), st1)
  | (Raise e, st1) => (Raise e, st1)
  end.
Proof.
  unfold main, bind.
  destruct (check_ffmpeg st) as [[[]|e] st1]; reflexivity.
Qed.

Lemma status_not_escaping status cmd stderr :
  ~ escaping (CalledProcessError status cmd stderr).
Proof. intros [[path [=]]|[=]]. Qed.

Lemma escaping_exit_status e : escaping e -> exit_status (Raise e) = 1%Z.
Proof. intros [[path ->]| ->]; reflexivity. Qed.

Lemma main_escaping given (st : state world) e :
  fst (main given st) = Raise e ->
  (exists code, e = SystemExit code) \/ escaping e.
Proof.
  destruct (check_ffmpeg_state st) as (installed & st1 & E & _).
  destruct given as [args|code].
  - rewrite main_parsed_run, E.
    destruct installed; [|intros [= <-]; left; eauto].
    destruct (batch args).
    + destruct (isdir_in (os_world st1) (input args));
        [|intros [= <-]; left; eauto].
      pose proof (@batch_convert_escaping
                    _ _ (input args) (output args) (format args)
                    (quality args) (verbose args) st1) as Hesc.
      destruct (batch_convert _ _ _ _ _ st1) as [[counts|e0] st2];
        simpl in Hesc.
      * destruct (0 <? snd counts)%nat;
          [intros [= <-]; left; eauto|discriminate].
      * intros [= <-]. right. now apply Hesc.
    + destruct (isfile_in (os_world st1) (input args));
        [|intros [= <-]; left; eauto].
      destruct (convert_video_to_audio _ _ _ _ _ st1)
        as [[[]|e0] st2] eqn:Ec.
      * discriminate.
      * intros [= <-]. left; eauto.
      * intros [= <-]. right. eapply convert_escaping; eassumption.
  - rewrite main_exits_run, E.
    destruct installed; intros [= <-]; left; eauto.
Qed.

(** X3. A non-zero exit status of ffmpeg never leaves the script as an
    exception: the [CalledProcessError] that [subprocess.run] raises for
    it is caught where it is raised (lines 37 and 104), so that it
    escapes neither [check_ffmpeg], nor a conversion, nor a batch, nor
    [main]. *)
Theorem exit_status_is_caught
        input_path output_path audio_format bitrate chatty given
        (st : state world) status cmd stderr :
  fst (check_ffmpeg st) <> Raise (CalledProcessError status cmd stderr) /\
  fst (convert_video_to_audio input_path output_path audio_format bitrate
                              chatty st)
  <> Raise (CalledProcessError status cmd stderr) /\
  fst (batch_convert input_path output_path audio_format bitrate chatty st)
  <> Raise (CalledProcessError status cmd stderr) /\
  fst (main given st) <> Raise (CalledProcessError status cmd stderr).
Proof.
  repeat split.
  - destruct (check_ffmpeg_state st) as (installed & st1 & E & _).
    rewrite E. discriminate.
  - destruct (convert_video_to_audio _ _ _ _ _ st) as [[ok|e] st1] eqn:E;
      [discriminate|].
    simpl. intros [= ->]. apply convert_escaping in E.
    now apply status_not_escaping in E.
  - intros E. apply batch_convert_escaping in E.
    now apply status_not_escaping in E.
  - intros E. destruct (main_escaping _ _ E) as [[code [=]]|Hesc].
    now apply status_not_escaping in Hesc.
Qed.

(** X10. The exit status of the script is 0, 1, or the status with which
    argparse exits.  It is 0 in these runs only: ffmpeg answered, and
    then argparse exits with 0 (the help), or, in batch mode, the input
    is a directory and [batch_convert] returned with no failure counted,
    or, in single-file mode, the input is a regular file and the
    conversion returned [True]. *)
Theorem exit_status_of_main given (st : state world) :
  let st1 := snd (check_ffmpeg st) in
  let status := exit_status (fst (main given st)) in
  (status = 0%Z \/ status = 1%Z \/ given = Exits status) /\
  (status = 0%Z <->
   fst (check_ffmpeg st) = Ret true /\
   match given with
   | Exits code => code = 0%Z
   | Parsed args =>
       if batch args then
         isdir_in (os_world st1) (input args) = true /\
         exists successes,
           fst (batch_convert (input args) (output args) (format args)
                              (quality args) (verbose args) st1)
           = Ret (successes, 0)
       else
         isfile_in (os_world st1) (input args) = true /\
         fst (convert_video_to_audio (input args) (output args) (format args)
                                     (quality args) (verbose args) st1)
         = Ret true
   end).
Proof.
  cbv zeta.
  destruct (check_ffmpeg_returns st) as (installed & Hc).
  destruct given as [args|code].
  - rewrite main_parsed_run.
    destruct (check_ffmpeg st) as [r st1]. simpl in Hc. subst r. simpl snd.
    destruct installed; simpl;
      [|split; [now right; left|split; [discriminate|intros [[=] _]]]].
    destruct (batch args).
    + destruct (isdir_in (os_world st1) (input args)); simpl;
        [|split; [now right; left
                 |split; [discriminate|intros (_ & [=] & _)]]].
      pose proof (@batch_convert_escaping
                    _ _ (input args) (output args) (format args)
                    (quality args) (verbose args) st1) as Hesc.
      destruct (batch_convert _ _ _ _ _ st1) as [[[s f]|e] st2]; simpl in *.
      * destruct f as [|f]; simpl.
        -- split; [now left|]. split; [eauto|reflexivity].
        -- split; [now right; left|]. split; [discriminate|].
           intros (_ & _ & s' & [=]).
      * destruct (Hesc e eq_refl) as [[path ->]| ->]; simpl;
          (split; [now right; left|]; split; [discriminate|];
           intros (_ & _ & s' & [=])).
    + destruct (isfile_in (os_world st1) (input args)); simpl;
        [|split; [now right; left
                 |split; [discriminate|intros (_ & [=] & _)]]].
      destruct (convert_video_to_audio _ _ _ _ _ st1) as [[[]|e] st2] eqn:E;
        simpl.
      * split; [now left|]. now split.
      * split; [now right; left|]. split; [discriminate|].
        intros (_ & _ & [=]).
      * destruct (convert_escaping _ _ _ _ _ _ E) as [[path ->]| ->]; simpl;
          (split; [now right; left|]; split; [discriminate|];
           intros (_ & _ & [=])).
  - rewrite main_exits_run.
    destruct (check_ffmpeg st) as [r st1]. simpl in Hc. subst r.
    destruct installed; simpl.
    + split; [now right; right|]. split; [now split|now intros [_ ->]].
    + split; [now right; left|]. split; [discriminate|intros [[=] _]].
Qed.

(** X11. Without ffmpeg the script stops at once: when [check_ffmpeg]
    answers [False], [main] exits with status 1 in the state that the
    check left, whatever the command line is, which it has not read; it
    has looked at no path, made no directory and started no
    conversion. *)
Theorem main_needs_ffmpeg given (st : state world) :
  fst (check_ffmpeg st) = Ret false ->
  main given st = (Raise (SystemExit 1), snd (check_ffmpeg st)) /\
  calls (snd (main given st)) = calls st ++ [probe] /\
  log (snd (main given st)) = log st ++ complaint.
Proof.
  intros Hc.
  assert (E : main given st = (Raise (SystemExit 1), snd (check_ffmpeg st))).
  { destruct given as [args|code];
      [rewrite main_parsed_run|rewrite main_exits_run];
      destruct (check_ffmpeg st) as [r st1]; simpl in Hc; now subst r. }
  rewrite E. split; [reflexivity|].
  destruct (check_ffmpeg_state st) as (installed & st' & E' & Hcalls & Hlog).
  rewrite E' in *. simpl in Hc. injection Hc as ->. simpl.
  now split.
Qed.

(** X12. In single-file mode the input must be a regular file: for
    anything else, a directory or a path where nothing is, [main] logs
    the error and exits with status 1 without calling the conversion; no
    directory is made and ffmpeg is not started again. *)
Theorem single_input_must_be_file (args : Args) (st : state world) :
  let st1 := snd (check_ffmpeg st) in
  batch args = false ->
  isfile_in (os_world st1) (input args) = false ->
  fst (main (Parsed args) st) = Raise (SystemExit 1) /\
  os_world (snd (main (Parsed args) st)) = os_world st1 /\
  calls (snd (main (Parsed args) st)) = calls st ++ [probe] /\
  (fst (check_ffmpeg st) = Ret true ->
   log (snd (main (Parsed args) st))
   = log st ++ [(ERROR, InputFileDoesNotExist (input args))]).
Proof.
  cbv zeta. intros Hmode Hfile. rewrite main_parsed_run.
  destruct (check_ffmpeg_state st) as (installed & st' & E & Hcalls & Hlog).
  rewrite E in *. simpl in Hfile. simpl snd.
  destruct installed.
  - rewrite Hmode, Hfile. simpl. repeat split; try assumption.
    intros _. rewrite Hlog. now rewrite app_nil_r.
  - simpl. repeat split; try assumption. discriminate.
Qed.

Lemma grown_refl (st : state world) : grown st st.
Proof. exists []. split; [now rewrite app_nil_r|reflexivity]. Qed.

Lemma grown_trans (st1 st2 st3 : state world) :
  grown st1 st2 -> grown st2 st3 -> grown st1 st3.
Proof.
  intros (r1 & E1 & N1) (r2 & E2 & N2). exists (r1 ++ r2). split.
  - now rewrite E2, E1, app_assoc.
  - now rewrite existsb_app, N1, N2.
Qed.

Lemma grown_logged (st : state world) records :
  existsb is_done records = false -> grown st (logged st records).
Proof. intros N. now exists records. Qed.

Lemma check_ffmpeg_grown (st : state world) :
  grown st (snd (check_ffmpeg st)).
Proof.
  destruct (check_ffmpeg_state st) as (installed & st' & E & _ & Hlog).
  rewrite E. simpl. exists (if installed then [] else complaint).
  split; [assumption|now destruct installed].
Qed.

Lemma convert_grown input_path output_path audio_format quality verbose
      (st : state world) :
  grown st (snd (convert_video_to_audio input_path output_path audio_format
                                        quality verbose st)).
Proof.
  rewrite convert_run.
  destruct (exists_in (os_world st) input_path).
  - destruct (mkdirs (os_world st) (output_parent output_path)) as [w'|];
      [|apply grown_refl].
    rewrite execute_run. cbv zeta. simpl.
    destruct (spawn w' _) as [p|];
      [destruct (Z.eqb (returncode p) 0)|]; simpl;
      eexists; (split; [rewrite <- ?app_assoc; reflexivity|]);
      unfold announced; now destruct verbose.
  - simpl. now eexists.
Qed.

Lemma convert_each_grown output_dir audio_format quality verbose files :
  forall s f (st : state world),
    grown st (snd (convert_each output_dir audio_format quality verbose
                                files s f st)).
Proof.
  induction files as [|vf rest IH]; intros s f st; simpl;
    [apply grown_refl|].
  unfold bind.
  pose proof (convert_grown
                vf (derive_output_path output_dir audio_format vf)
                audio_format quality verbose st) as Hg.
  destruct (convert_video_to_audio vf _ audio_format quality verbose st)
    as [[ok|e] st1]; simpl in Hg; [|exact Hg].
  destruct ok; (eapply grown_trans; [exact Hg|apply IH]).
Qed.

Lemma batch_convert_grown input_dir output_dir audio_format quality verbose
      (st : state world) :
  grown st (snd (batch_convert input_dir output_dir audio_format quality
                               verbose st)).
Proof.
  rewrite batch_convert_run.
  destruct (mkdirs (os_world st) (Path.join output_dir "")) as [w'|];
    [|apply grown_refl].
  destruct (video_files_in w' (Path.join input_dir "")) as [|vf rest].
  - simpl. now eexists.
  - cbv zeta.
    set (st1 := State w' (log st ++ [(INFO, BatchStart (length (vf :: rest)))])
                      (calls st) (console st)).
    assert (H1 : grown st st1) by now eexists.
    pose proof (convert_each_grown (Path.join output_dir "") audio_format
                                   quality verbose (vf :: rest) 0 0 st1) as H2.
    destruct (convert_each _ _ _ _ (vf :: rest) 0 0 st1) as [[counts|e] st2];
      simpl in H2 |- *.
    + eapply grown_trans; [exact H1|]. eapply grown_trans; [exact H2|].
      now eexists.
    + eapply grown_trans; eassumption.
Qed.

Lemma grown_then_done (st st' : state world) records :
  grown st st' -> existsb is_done records = true ->
  exists added,
    log (logged st' records) = log st ++ added /\
    existsb is_done added = true.
Proof.
  intros (r & E & N) D. exists (r ++ records). split.
  - simpl. now rewrite E, app_assoc.
  - rewrite existsb_app, D. apply orb_true_r.
Qed.

Lemma grown_not_done (st st' : state world) :
  grown st st' ->
  exists added,
    log st' = log st ++ added /\ existsb is_done added = false.
Proof. trivial. Qed.

(** X13. The record that says the conversion is done (line 259) is added
    to the log by the runs that read their arguments and end with exit
    status 0, and by no other: neither a run that ends with status 1, at
    a check, on a failed conversion or on an exception, nor a run that
    argparse ends, whatever its status. *)
Theorem done_is_logged_on_success given (st : state world) :
  exists added,
    log (snd (main given st)) = log st ++ added /\
    (existsb is_done added = true
     <-> (exists args, given = Parsed args) /\
         exit_status (fst (main given st)) = 0%Z).
Proof.
  pose proof (check_ffmpeg_grown st) as Hc.
  destruct (check_ffmpeg_returns st) as (installed & Hr).
  assert (Hno : forall (st' : state world) (r : outcome unit) (P : Prop),
             grown st st' -> ~ (P /\ exit_status r = 0%Z) ->
             exists added,
               log st' = log st ++ added /\
               (existsb is_done added = true
                <-> P /\ exit_status r = 0%Z)).
  { intros st' r P (added & E & N) Hr'. exists added. split; [assumption|].
    rewrite N. split; [discriminate|contradiction]. }
  destruct given as [args|code].
  - rewrite main_parsed_run.
    destruct (check_ffmpeg st) as [r st1]. simpl in Hc, Hr. subst r.
    assert (Hyes : forall (st' : state world) records,
               grown st st' -> existsb is_done records = true ->
               exists added,
                 log (logged st' records) = log st ++ added /\
                 (existsb is_done added = true
                  <-> (exists args', Parsed args = Parsed args') /\
                      exit_status (Ret tt) = 0%Z)).
    { intros st' records Hg D.
      destruct (grown_then_done records Hg D) as (added & E & Y).
      exists added. split; [assumption|]. rewrite Y.
      split; [intros _; split; [eauto|reflexivity]|reflexivity]. }
    destruct installed;
      [|apply Hno; [assumption|intros [_ [=]]]].
    destruct (batch args).
    + destruct (isdir_in (os_world st1) (input args)).
      * pose proof (batch_convert_grown (input args) (output args)
                                        (format args) (quality args)
                                        (verbose args) st1) as Hb.
        pose proof (@batch_convert_escaping
                      _ _ (input args) (output args) (format args)
                      (quality args) (verbose args) st1) as Hesc.
        destruct (batch_convert _ _ _ _ _ st1) as [[counts|e] st2];
          simpl in Hb, Hesc.
        -- destruct (0 <? snd counts)%nat.
           ++ apply Hno; [|intros [_ [=]]].
              eapply grown_trans; [exact Hc|].
              eapply grown_trans; [exact Hb|]. now apply grown_logged.
           ++ apply Hyes; [|reflexivity]. eapply grown_trans; eassumption.
        -- apply Hno; [eapply grown_trans; eassumption|].
           intros [_ Hz]. cbn [fst] in Hz.
           rewrite (escaping_exit_status (Hesc e eq_refl)) in Hz.
           discriminate.
      * apply Hno; [|intros [_ [=]]].
        eapply grown_trans; [exact Hc|]. now apply grown_logged.
    + destruct (isfile_in (os_world st1) (input args)).
      * pose proof (convert_grown (input args) (output args) (format args)
                                  (quality args) (verbose args) st1) as Hb.
        destruct (convert_video_to_audio _ _ _ _ _ st1)
          as [[[]|e] st2] eqn:E; simpl in Hb.
        -- apply Hyes; [|reflexivity]. eapply grown_trans; eassumption.
        -- apply Hno; [eapply grown_trans; eassumption|intros [_ [=]]].
        -- apply Hno; [eapply grown_trans; eassumption|].
           intros [_ Hz]. cbn [fst] in Hz.
           rewrite (escaping_exit_status (convert_escaping _ _ _ _ _ _ E))
             in Hz.
           discriminate.
      * apply Hno; [|intros [_ [=]]].
        eapply grown_trans; [exact Hc|]. now apply grown_logged.
  - rewrite main_exits_run.
    destruct (check_ffmpeg st) as [r st1]. simpl in Hc, Hr. subst r.
    destruct installed; (apply Hno; [assumption|]);
      intros [[args [=]] _].
Qed.

End MoreMain.

(** ** Where the output goes *)

Section Destination.
Import Str.

Lemma before_last_clean c d s :
  mem_char c s = false -> mem_char c (before_last d s) = false.
Proof.
  induction s as [|e s IH]; simpl; [reflexivity|].
  intros Hs. apply orb_false_elim in Hs as [He Hs].
  destruct (mem_char d s); [|reflexivity].
  simpl. now rewrite He, IH.
Qed.

Lemma splitext_name_clean name :
  mem_char sep name = false ->
  mem_char sep (fst (Path.splitext name)) = false.
Proof.
  intros Hn. unfold Path.splitext.
  destruct (mem_char extsep (after_last sep name)); [|exact Hn].
  destruct (all_char extsep (before_last extsep (after_last sep name)));
    [exact Hn|].
  simpl. now apply before_last_clean.
Qed.

Lemma has_suffix_refl s : has_suffix s s = true.
Proof. destruct s; simpl; now rewrite ?Ascii.eqb_refl, ?String.eqb_refl. Qed.

Lemma has_suffix_append a s : has_suffix s (a ++ s) = true.
Proof.
  induction a as [|c a IH]; simpl append.
  - apply has_suffix_refl.
  - cbn [has_suffix]. rewrite IH. apply orb_true_r.
Qed.

(** X14. The output of a batch never leaves the output directory because
    of the name of a video: the derived path is the output directory, a
    separator unless it has one at its end or is empty, a stem without
    separator, a dot and the format; so it ends with the extension of the
    format, and [join] never drops the directory. *)
Theorem output_stays_in_output_dir output_dir audio_format video_file :
  exists stem,
    mem_char sep stem = false /\
    derive_output_path output_dir audio_format video_file
    = (joined output_dir ++ stem ++ "." ++ audio_format)%string /\
    has_suffix ("." ++ audio_format)
               (derive_output_path output_dir audio_format video_file)
    = true.
Proof.
  exists (fst (Path.splitext (Path.basename video_file))).
  assert (Hstem : mem_char sep (fst (Path.splitext (Path.basename video_file)))
                  = false)
    by apply splitext_name_clean, after_last_clean.
  assert (E : derive_output_path output_dir audio_format video_file
              = (joined output_dir
                   ++ fst (Path.splitext (Path.basename video_file))
                   ++ "." ++ audio_format)%string).
  { unfold derive_output_path. apply join_relative.
    destruct (fst (Path.splitext (Path.basename video_file))) as [|c stem];
      [reflexivity|].
    simpl in Hstem |- *. now apply orb_false_elim in Hstem as [-> _]. }
  split; [exact Hstem|]. split; [exact E|].
  rewrite E, <- (append_assoc (joined output_dir) _ ("." ++ audio_format)).
  apply has_suffix_append.
Qed.

End Destination.

(** ** More runs on the small operating system *)

Lemma missing_engine_escapes_witness :
  let st := Toy.start Toy.three in
  let cmd := ffmpeg_cmd "/in/one.mp4" "/out/one.mp3" "mp3" "192k" in
  let w' := Toy.three ++ [("/out", Directory)] in
  exists_in (sys := Toy.os Toy.absent) (os_world st) "/in/one.mp4" = true /\
  mkdirs (OS := Toy.os Toy.absent) (os_world st)
         (output_parent "/out/one.mp3") = Some w' /\
  spawn (OS := Toy.os Toy.absent) w' cmd = None /\
  (convert_video_to_audio (sys := Toy.os Toy.absent)
                          "/in/one.mp4" "/out/one.mp3" "mp3" "192k" false st
   = (Raise (FileNotFoundError "ffmpeg"),
      State w' (log st ++ announced cmd false)
            (calls st ++ [Invocation cmd (negb false)]) (console st))
   /\ forall output_dir rest s f,
       "/out/one.mp3" = derive_output_path output_dir "mp3" "/in/one.mp4" ->
       fst (convert_each (sys := Toy.os Toy.absent)
                         output_dir "mp3" "192k" false
                         ("/in/one.mp4" :: rest) s f st)
       = Raise (FileNotFoundError "ffmpeg")).
Proof.
  refine (conj eq_refl (conj eq_refl (conj eq_refl _))).
  apply (missing_engine_escapes
           (sys := Toy.os Toy.absent)
           "/in/one.mp4" "/out/one.mp3" "mp3" "192k" false
           (Toy.start Toy.three)
           (w' := Toy.three ++ [("/out", Directory)]));
    reflexivity.
Defined.

Lemma same_stem_same_output_witness :
  In ".mp4" video_suffixes /\ In ".avi" video_suffixes /\
  Str.truthy "movie" = true /\ ishidden "movie" = false /\
  Str.mem_char Str.sep "movie" = false /\
  derive_output_path "/out/" "mp3" (Path.join "/in/" ("movie" ++ ".mp4"))
  = derive_output_path "/out/" "mp3" (Path.join "/in/" ("movie" ++ ".avi")).
Proof.
  assert (H1 : In ".mp4" video_suffixes) by (simpl; tauto).
  assert (H2 : In ".avi" video_suffixes) by (simpl; tauto).
  refine (conj H1 (conj H2 (conj eq_refl (conj eq_refl (conj eq_refl _))))).
  apply (@same_stem_same_output "/out/" "mp3" "/in/" "/in/" "movie"
                                ".mp4" ".avi" H1 H2);
    reflexivity.
Defined.

(** Both videos of [same_stem] are converted, to one output path. *)
Example same_stem_batch :
  let run := batch_convert (sys := Toy.os (Toy.calm []))
                           "/in" "/out" "mp3" "192k" false
                           (Toy.start Toy.same_stem) in
  fst run = Ret (2, 0) /\
  map argv (calls (snd run))
  = [ffmpeg_cmd "/in/movie.mp4" "/out/movie.mp3" "mp3" "192k";
     ffmpeg_cmd "/in/movie.avi" "/out/movie.mp3" "mp3" "192k"].
Proof. repeat split. Qed.

Lemma enumerated_iff_matching_witness :
  has_magic (listed_dir "/in/") = false /\
  (In "/in/movie.mp4"
      (video_files_in (sys := Toy.os (Toy.calm [])) Toy.hidden_video "/in/")
   <-> exists name,
      In name (scandir (OS := Toy.os (Toy.calm []))
                       Toy.hidden_video (listing "/in/")) /\
      matches_video name = true /\
      "/in/movie.mp4" = Path.join (listed_dir "/in/") name).
Proof.
  split; [reflexivity|].
  apply (enumerated_iff_matching (sys := Toy.os (Toy.calm []))
                                 Toy.hidden_video "/in/" "/in/movie.mp4").
  reflexivity.
Defined.

(** The hidden video and the video of the subdirectory are left out. *)
Example hidden_and_nested_left_out :
  scandir (OS := Toy.os (Toy.calm [])) Toy.hidden_video "/in"
  = [".draft.mp4"; "sub"; "movie.mp4"] /\
  video_files_in (sys := Toy.os (Toy.calm [])) Toy.hidden_video "/in/"
  = ["/in/movie.mp4"].
Proof. split; reflexivity. Qed.

Lemma no_matching_name_no_work_witness :
  let st := Toy.start Toy.no_video in
  let w' := Toy.no_video ++ [("/out", Directory)] in
  has_magic (listed_dir (Path.join "/nowhere" "")) = false /\
  mkdirs (OS := Toy.os (Toy.calm [])) (os_world st) (Path.join "/out" "")
  = Some w' /\
  existsb matches_video
          (scandir (OS := Toy.os (Toy.calm []))
                   w' (listing (Path.join "/nowhere" ""))) = false /\
  batch_convert (sys := Toy.os (Toy.calm []))
                "/nowhere" "/out" "mp3" "192k" false st
  = (Ret (0, 0),
     logged (State w' (log st) (calls st) (console st))
            [(WARNING, NoVideoFound (Path.join "/nowhere" ""))]).
Proof.
  refine (conj eq_refl (conj eq_refl (conj eq_refl _))).
  apply (no_matching_name_no_work
           (sys := Toy.os (Toy.calm []))
           "/nowhere" "/out" "mp3" "192k" false (Toy.start Toy.no_video)
           (w' := Toy.no_video ++ [("/out", Directory)]));
    reflexivity.
Defined.

Lemma main_needs_ffmpeg_witness :
  let given := Parsed (Build_Args "/in" "/out" "mp3" "192k" true false) in
  let st := Toy.start Toy.three in
  fst (check_ffmpeg (sys := Toy.os Toy.absent) st) = Ret false /\
  main (sys := Toy.os Toy.absent) given st
  = (Raise (SystemExit 1), snd (check_ffmpeg (sys := Toy.os Toy.absent) st)) /\
  calls (snd (main (sys := Toy.os Toy.absent) given st))
  = calls st ++ [probe] /\
  log (snd (main (sys := Toy.os Toy.absent) given st)) = log st ++ complaint.
Proof.
  split; [reflexivity|].
  apply (main_needs_ffmpeg
           (sys := Toy.os Toy.absent)
           (Parsed (Build_Args "/in" "/out" "mp3" "192k" true false))
           (Toy.start Toy.three)).
  reflexivity.
Defined.

Lemma single_input_must_be_file_witness :
  let args := Build_Args "/in/clips.mp4" "/out/clips.mp3" "mp3" "192k"
                         false false in
  let st := Toy.start Toy.with_directory in
  let st1 := snd (check_ffmpeg (sys := Toy.os (Toy.calm [])) st) in
  batch args = false /\
  isfile_in (sys := Toy.os (Toy.calm [])) (os_world st1) (input args)
  = false /\
  fst (main (sys := Toy.os (Toy.calm [])) (Parsed args) st)
  = Raise (SystemExit 1) /\
  os_world (snd (main (sys := Toy.os (Toy.calm [])) (Parsed args) st))
  = os_world st1 /\
  calls (snd (main (sys := Toy.os (Toy.calm [])) (Parsed args) st))
  = calls st ++ [probe] /\
  (fst (check_ffmpeg (sys := Toy.os (Toy.calm [])) st) = Ret true ->
   log (snd (main (sys := Toy.os (Toy.calm [])) (Parsed args) st))
   = log st ++ [(ERROR, InputFileDoesNotExist (input args))]).
Proof.
  refine (conj eq_refl (conj eq_refl _)).
  apply (single_input_must_be_file
           (sys := Toy.os (Toy.calm []))
           (Build_Args "/in/clips.mp4" "/out/clips.mp3" "mp3" "192k"
                       false false)
           (Toy.start Toy.with_directory));
    reflexivity.
Defined.

(** A single file converted, and a single file on which ffmpeg fails. *)
Example single_file_runs :
  let run cfg :=
    main (sys := Toy.os cfg)
         (Parsed (Build_Args "/in/two.mp4" "/out/two.wav" "wav" "192k"
                             false false))
         (Toy.start Toy.three) in
  exit_status (fst (run (Toy.calm []))) = 0%Z /\
  log (snd (run (Toy.calm [])))
  = [(INFO, ConversionDone "two.mp4" "two.wav"); (INFO, AllDone)] /\
  exit_status (fst (run Toy.second_broken)) = 1%Z /\
  log (snd (run Toy.second_broken))
  = [(ERROR, ConversionError
               (ffmpeg_cmd "/in/two.mp4" "/out/two.wav" "wav" "192k") 1)].
Proof. repeat split. Qed.

(** A command line that argparse refuses, and one that asks for the help:
    the script ends with the status of argparse, after the check of
    ffmpeg and without the closing record. *)
Example argparse_ends_the_run :
  let run code := main (sys := Toy.os (Toy.calm [])) (Exits code)
                       (Toy.start Toy.three) in
  fst (run 2%Z) = Raise (SystemExit 2) /\
  exit_status (fst (run 0%Z)) = 0%Z /\
  log (snd (run 0%Z)) = [] /\
  calls (snd (run 0%Z)) = [probe] /\
  exit_status (fst (main (sys := Toy.os Toy.absent) (Exits 0)
                         (Toy.start Toy.three))) = 1%Z.
Proof. repeat split. Qed.
